(** * Healthy Diet Cost Dashboard: the filter, metrics, chart and insight
    pipeline of [app.py], embedded as pure functions.

    The script is one top-to-bottom pass over a pandas DataFrame.  A
    DataFrame is a list of rows, a Series indexed by a key is an association
    list, an operation that can raise returns in the error monad [Exc], and
    a float column holds exact rationals: rounding of IEEE doubles is outside
    this model, the missing value NaN is explicit in [float64].  A mean is
    therefore the exact mean where pandas has the float64 nearest to it; the
    statements below do not rest on means being exact, except on the
    three-row scenario, whose means are exact in doubles. *)

From Stdlib Require Import List String Bool ZArith QArith Lia.
From Stdlib Require Import Permutation Sorted OrdersEx RelationClasses.
Import ListNotations.

Local Open Scope string_scope.
Local Open Scope Z_scope.

(* ------------------------------------------------------------------ *)
(** ** Exceptions *)

Inductive exn : Type :=
| ValueError (msg : string)
| IndexError (msg : string)
| StreamlitAPIException (msg : string).

Definition Exc (A : Type) : Type := (exn + A)%type.

Definition ret {A : Type} (a : A) : Exc A := inr a.
Definition raise {A : Type} (e : exn) : Exc A := inl e.
Definition bind {A B : Type} (c : Exc A) (k : A -> Exc B) : Exc B :=
  match c with
  | inl e => inl e
  | inr a => k a
  end.

Notation "x <- c ;; k" := (bind c (fun x => k))
  (at level 61, c at next level, right associativity).

(* ------------------------------------------------------------------ *)
(** ** Rows and frames *)

Record Row : Type := mkRow {
  region : string;
  country : string;
  year : Z;
  cost_category : string;
  cost_healthy_diet_ppp_usd : Q;
  annual_cost_healthy_diet_usd : Q
}.

Definition DataFrame : Type := list Row.

(** A float that may be NaN, as [Series.mean] of an empty column is. *)
Inductive float64 : Type :=
| NaN
| Fin (q : Q).

(* ------------------------------------------------------------------ *)
(** ** Keys of a grouping: strings and integers, each with its order *)

Class GroupKey (K : Type) : Type := {
  kcmp : K -> K -> comparison;
  kcmp_eq : forall x y, kcmp x y = Eq <-> x = y;
  kcmp_antisym : forall x y, kcmp y x = CompOpp (kcmp x y);
  kcmp_trans : forall x y z, kcmp x y = Lt -> kcmp y z = Lt -> kcmp x z = Lt
}.

Definition keqb {K : Type} `{GroupKey K} (x y : K) : bool :=
  match kcmp x y with Eq => true | _ => false end.

Definition klt {K : Type} `{GroupKey K} (x y : K) : Prop := kcmp x y = Lt.

#[export] Instance Z_GroupKey : GroupKey Z.
Proof.
  refine {| kcmp := Z.compare |}.
  - intros x y. apply Z.compare_eq_iff.
  - intros x y. apply Z.compare_antisym.
  - intros x y z Hxy Hyz.
    apply (proj2 (Z.compare_lt_iff x z)).
    apply (proj1 (Z.compare_lt_iff x y)) in Hxy.
    apply (proj1 (Z.compare_lt_iff y z)) in Hyz.
    exact (Z.lt_trans x y z Hxy Hyz).
Defined.

#[export] Instance string_GroupKey : GroupKey string.
Proof.
  pose proof (@StrictOrder_Irreflexive _ _ String_as_OT.lt_strorder) as irr.
  pose proof (@StrictOrder_Transitive _ _ String_as_OT.lt_strorder) as tra.
  unfold Irreflexive, Reflexive, complement, Transitive, String_as_OT.lt in irr, tra.
  refine {| kcmp := String_as_OT.compare |}.
  - intros x y. split.
    + intros E. destruct (String_as_OT.compare_spec x y) as [E' | L | L];
        [exact E' | discriminate | discriminate].
    + intros ->. destruct (String_as_OT.compare y y) eqn:E;
        [reflexivity | destruct (irr _ E) | ].
      destruct (String_as_OT.compare_spec y y) as [_ | L | L];
        [discriminate | discriminate | destruct (irr _ L)].
  - intros x y.
    destruct (String_as_OT.compare_spec x y) as [E | L | L];
      destruct (String_as_OT.compare_spec y x) as [E' | L' | L'];
      unfold String_as_OT.eq in *; cbn [CompOpp]; try reflexivity; try subst y;
      first [ destruct (irr _ L) | destruct (irr _ L')
            | destruct (irr _ (tra _ _ _ L L')) ].
  - intros x y z Hxy Hyz. exact (tra _ _ _ Hxy Hyz).
Defined.

(* ------------------------------------------------------------------ *)
(** ** The pandas operations the script calls *)

Module Pandas.

Section Keyed.
Context {K : Type} `{GroupKey K}.

(** [Series.isin(values)] at one cell. *)
Definition isin (values : list K) (x : K) : bool :=
  existsb (keqb x) values.

(** [Series.unique()]: the distinct values in order of first appearance. *)
Fixpoint unique (l : list K) : list K :=
  match l with
  | [] => []
  | x :: l' => x :: filter (fun y => negb (keqb y x)) (unique l')
  end.

(** The sorted distinct keys of a grouping ([groupby] has [sort=True]). *)
Fixpoint insert_key (k : K) (ks : list K) : list K :=
  match ks with
  | [] => [k]
  | k' :: ks' =>
      match kcmp k k' with
      | Lt => k :: ks
      | Eq => ks
      | Gt => k' :: insert_key k ks'
      end
  end.

Definition group_keys (col : list K) : list K :=
  fold_right insert_key [] col.

(** Number of cells of a column equal to [k]. *)
Definition count_of (k : K) (col : list K) : nat :=
  List.length (filter (keqb k) col).
End Keyed.

(** [Series.between(left, right)], inclusive on both sides. *)
Definition between (left right x : Z) : bool :=
  (left <=? x) && (x <=? right).

Definition Qsum (l : list Q) : Q := fold_right Qplus 0%Q l.

Definition Qmean (l : list Q) : Q :=
  (Qsum l / inject_Z (Z.of_nat (List.length l)))%Q.

(** [Series.mean()]: NaN on an empty column. *)
Definition Series_mean (l : list Q) : float64 :=
  match l with
  | [] => NaN
  | _ :: _ => Fin (Qmean l)
  end.

(** [Series.min()] and [Series.max()] of an integer column; [None] is the
    NaN pandas gives for an empty column. *)
Definition Series_min (l : list Z) : option Z :=
  match l with
  | [] => None
  | x :: l' => Some (fold_left Z.min l' x)
  end.

Definition Series_max (l : list Z) : option Z :=
  match l with
  | [] => None
  | x :: l' => Some (fold_left Z.max l' x)
  end.

(** Python's [int(x)] on the result of such a reduction. *)
Definition int (x : option Z) : Exc Z :=
  match x with
  | None => raise (ValueError "cannot convert float NaN to integer")
  | Some z => ret z
  end.

Section Grouping.
Context {K : Type} `{GroupKey K}.

(** The rows of one group. *)
Definition get_group (key : Row -> K) (k : K) (df : DataFrame) : DataFrame :=
  filter (fun r => keqb (key r) k) df.

(** [df.groupby(key)[val].mean()]: one entry per distinct key, keys
    ascending.  Every group has a row, so its mean is a number. *)
Definition groupby_mean (key : Row -> K) (val : Row -> Q) (df : DataFrame)
  : list (K * Q) :=
  map (fun k => (k, Qmean (map val (get_group key k df))))
      (group_keys (map key df)).

(** [Series.idxmax()]: the label of the first occurrence of the maximum;
    numpy's argmax raises on an empty array. *)
Fixpoint argmax_from (best : K * Q) (l : list (K * Q)) : K * Q :=
  match l with
  | [] => best
  | x :: l' =>
      if Qle_bool (snd x) (snd best) then argmax_from best l'
      else argmax_from x l'
  end.

Definition idxmax (s : list (K * Q)) : Exc K :=
  match s with
  | [] => raise (ValueError "attempt to get argmax of an empty sequence")
  | x :: l => ret (fst (argmax_from x l))
  end.

Fixpoint argmin_from (best : K * Q) (l : list (K * Q)) : K * Q :=
  match l with
  | [] => best
  | x :: l' =>
      if Qle_bool (snd best) (snd x) then argmin_from best l'
      else argmin_from x l'
  end.

Definition idxmin (s : list (K * Q)) : Exc K :=
  match s with
  | [] => raise (ValueError "attempt to get argmin of an empty sequence")
  | x :: l => ret (fst (argmin_from x l))
  end.
End Grouping.

Section Sorting.
Context {K V : Type} (leb : V -> V -> bool).

(** Insertion before the first entry that is not smaller: entries with
    equal values keep their order. *)
Fixpoint insert_by (x : K * V) (l : list (K * V)) : list (K * V) :=
  match l with
  | [] => [x]
  | y :: l' =>
      if leb (snd x) (snd y) then x :: l else y :: insert_by x l'
  end.

Definition sort_asc (s : list (K * V)) : list (K * V) :=
  fold_right insert_by [] s.

(** [Series.sort_values(ascending=...)].  Descending order is obtained the
    way pandas' [nargsort] does it: reverse, sort ascending, reverse.  The
    order among entries of equal value is that of a stable sort; with the
    default [kind="quicksort"] numpy leaves it unspecified, and the
    statements below on sorted series use only that the result is a sorted
    permutation. *)
Definition sort_values (ascending : bool) (s : list (K * V)) : list (K * V) :=
  if ascending then sort_asc s else rev (sort_asc (rev s)).
End Sorting.

(** [Series.head(n)] and [DataFrame.head(n)]. *)
Definition head {A : Type} (n : nat) (l : list A) : list A := firstn n l.

(** [Series.value_counts()]: one entry per distinct value with the number of
    its occurrences, largest count first. *)
Definition value_counts {K : Type} `{GroupKey K} (col : list K) : list (K * nat) :=
  sort_values Nat.leb false (map (fun k => (k, count_of k col)) (unique col)).

(** [obj.iloc[i]] on a sequence, negative positions counted from the end. *)
Definition iloc {A : Type} (l : list A) (i : Z) : Exc A :=
  let n := Z.of_nat (List.length l) in
  let j := if i <? 0 then i + n else i in
  if (0 <=? j) && (j <? n) then
    match nth_error l (Z.to_nat j) with
    | Some a => ret a
    | None => raise (IndexError "single positional indexer is out-of-bounds")
    end
  else raise (IndexError "single positional indexer is out-of-bounds").

End Pandas.

(* ------------------------------------------------------------------ *)
(** ** The script *)

Module App.
Import Pandas.

(** The sidebar widgets.  Each call hands the widget its label, its options
    (or bounds) and its default, and gets back the user's current choice. *)
Record Sidebar : Type := {
  multiselect : string -> list string -> list string -> list string;
  slider : string -> Z -> Z -> Z * Z -> Z * Z
}.

(** Widgets nobody touched return their defaults.  Whether a widget can be
    shown at all is decided before it is asked, see [st_slider]. *)
Definition untouched : Sidebar := {|
  multiselect := fun _ _ default => default;
  slider := fun _ _ _ value => value
|}.

Record Selection : Type := {
  selected_regions : list string;
  selected_countries : list string;
  selected_years : Z * Z;
  selected_category : list string
}.

(** Widgets set to a given selection, whatever the options. *)
Definition chosen (sel : Selection) : Sidebar := {|
  multiselect := fun label _ _ =>
    if String.eqb label "Select Region" then selected_regions sel
    else if String.eqb label "Select Country" then selected_countries sel
    else selected_category sel;
  slider := fun _ _ _ _ => selected_years sel
|}.

(** [st.sidebar.slider(label, min_value, max_value, value)]: Streamlit checks
    its bounds before the widget exists and raises unless [min_value] is below
    [max_value]; only then does the widget return the user's range. *)
Definition st_slider (ui : Sidebar) (label : string) (min_value max_value : Z)
    (value : Z * Z) : Exc (Z * Z) :=
  if min_value <? max_value
  then ret (slider ui label min_value max_value value)
  else raise (StreamlitAPIException
                "Slider min_value must be less than the max_value").

(** Lines 22-51: the four sidebar filters. *)
Definition sidebar_filters (ui : Sidebar) (df : DataFrame) : Exc Selection :=
  let regions := multiselect ui "Select Region"
                   (unique (map region df)) (unique (map region df)) in
  let df_region := filter (fun r => isin regions (region r)) df in
  let countries := multiselect ui "Select Country"
                     (unique (map country df_region))
                     (unique (map country df_region)) in
  year_min <- int (Series_min (map year df)) ;;
  year_max <- int (Series_max (map year df)) ;;
  years <- st_slider ui "Select Year Range" year_min year_max
             (year_min, year_max) ;;
  let category := multiselect ui "Cost Category"
                    (unique (map cost_category df))
                    (unique (map cost_category df)) in
  ret {| selected_regions := regions;
         selected_countries := countries;
         selected_years := years;
         selected_category := category |}.

(** Lines 54-59: the boolean mask and the frame it selects. *)
Definition mask (sel : Selection) (r : Row) : bool :=
  isin (selected_regions sel) (region r)
  && isin (selected_countries sel) (country r)
  && between (fst (selected_years sel)) (snd (selected_years sel)) (year r)
  && isin (selected_category sel) (cost_category r).

Definition filtered_df (df : DataFrame) (sel : Selection) : DataFrame :=
  filter (mask sel) df.

(** Lines 66-71: the key metrics. *)
Definition avg_daily_cost (view : DataFrame) : float64 :=
  Series_mean (map cost_healthy_diet_ppp_usd view).

Definition avg_annual_cost (view : DataFrame) : float64 :=
  Series_mean (map annual_cost_healthy_diet_usd view).

Definition country_avg_cost (view : DataFrame) : list (string * Q) :=
  groupby_mean country cost_healthy_diet_ppp_usd view.

Definition highest_cost_country (view : DataFrame) : Exc string :=
  idxmax (country_avg_cost view).

Definition lowest_cost_country (view : DataFrame) : Exc string :=
  idxmin (country_avg_cost view).

(** Lines 84-111: the chart series. *)
Definition yearly_avg (view : DataFrame) : list (Z * Q) :=
  groupby_mean year cost_healthy_diet_ppp_usd view.

Definition region_avg (view : DataFrame) : list (string * Q) :=
  groupby_mean region cost_healthy_diet_ppp_usd view.

Definition top10 (view : DataFrame) : list (string * Q) :=
  head 10 (sort_values Qle_bool false (country_avg_cost view)).

Definition bottom10 (view : DataFrame) : list (string * Q) :=
  head 10 (sort_values Qle_bool true (country_avg_cost view)).

Definition cat_data (view : DataFrame) : list (string * nat) :=
  value_counts (map cost_category view).

(** Lines 124-130: the download button.  [csv_data] stands for
    [filtered_df.to_csv(index=False).encode("utf-8")]: it keeps the frame that
    is written, the text of the cells is not modelled, and no statement below
    speaks of the content of the download. *)
Definition csv_data (view : DataFrame) : DataFrame := view.

Record Download : Type := {
  data : DataFrame;
  file_name : string;
  mime : string
}.

Definition download_button (view : DataFrame) : Download := {|
  data := csv_data view;
  file_name := "filtered_healthy_diet_data.csv";
  mime := "text/csv"
|}.

(** Lines 135-144: the insight block.  The record holds the values the four
    sentences interpolate. *)
Record Insights : Type := {
  cost_change : Q;
  between_years : Z * Z;
  highest_region : string;
  most_expensive_country : string;
  least_expensive_country : string;
  spend_per_day : float64;
  spend_per_year : float64
}.

Definition empty {A : Type} (l : list A) : bool :=
  match l with [] => true | _ :: _ => false end.

Definition insights (yearly : list (Z * Q)) (regional : list (string * Q))
    (years : Z * Z) (highest lowest : string) (daily annual : float64)
  : Exc (option Insights) :=
  if negb (empty yearly) && negb (empty regional) then
    last_year <- iloc yearly (-1) ;;
    first_year <- iloc yearly 0 ;;
    top_region <- iloc (sort_values Qle_bool false regional) 0 ;;
    ret (Some {| cost_change := (snd last_year - snd first_year)%Q;
                 between_years := years;
                 highest_region := fst top_region;
                 most_expensive_country := highest;
                 least_expensive_country := lowest;
                 spend_per_day := daily;
                 spend_per_year := annual |})
  else ret None.

(** Everything one run of the script shows.  The metrics are kept as
    values; their rendering by ["{:.2f}"] is not modelled. *)
Record Dashboard : Type := {
  metric_daily : float64;
  metric_annual : float64;
  metric_highest : string;
  metric_lowest : string;
  fig1 : list (Z * Q);
  fig2 : list (string * Q);
  fig3 : list (string * Q);
  fig4 : list (string * Q);
  fig5 : list (string * nat);
  fig6 : DataFrame;
  dataframe : DataFrame;
  download : Download;
  auto_insights : option Insights
}.

(** Lines 54-144 in order. *)
Definition render (df : DataFrame) (sel : Selection) : Exc Dashboard :=
  let view := filtered_df df sel in
  let daily := avg_daily_cost view in
  let annual := avg_annual_cost view in
  highest <- highest_cost_country view ;;
  lowest <- lowest_cost_country view ;;
  let yearly := yearly_avg view in
  let regional := region_avg view in
  let top := top10 view in
  let bottom := bottom10 view in
  let cats := cat_data view in
  written <- insights yearly regional (selected_years sel)
                      highest lowest daily annual ;;
  ret {| metric_daily := daily;
         metric_annual := annual;
         metric_highest := highest;
         metric_lowest := lowest;
         fig1 := yearly;
         fig2 := regional;
         fig3 := top;
         fig4 := bottom;
         fig5 := cats;
         fig6 := view;
         dataframe := view;
         download := download_button view;
         auto_insights := written |}.

(** The whole script: load is done, [df] is the frame it returned. *)
Definition script (ui : Sidebar) (df : DataFrame) : Exc Dashboard :=
  sel <- sidebar_filters ui df ;;
  render df sel.

End App.

(* ------------------------------------------------------------------ *)
(** ** The three-row scenario *)

Module Scenario.
Import App.

Definition india : Row := mkRow "Asia" "India" 2020 "Low" 2.5 912.
Definition japan : Row := mkRow "Asia" "Japan" 2020 "High" 8.0 2920.
Definition france : Row := mkRow "Europe" "France" 2021 "High" 9.0 3285.

Definition dataset : DataFrame := [india; japan; france].

Definition asia_2020 : Selection := {|
  selected_regions := ["Asia"];
  selected_countries := ["India"; "Japan"];
  selected_years := (2020, 2020);
  selected_category := ["Low"; "High"]
|}.

(** The user deselects every region. *)
Definition no_region : Selection := {|
  selected_regions := [];
  selected_countries := ["India"; "Japan"; "France"];
  selected_years := (2020, 2021);
  selected_category := ["Low"; "High"]
|}.

(** One row per country, all in one region, year and category. *)
Definition one_row_each (costs : list (string * Q)) : DataFrame :=
  map (fun p => mkRow "Asia" (fst p) 2020 "Low" (snd p) 0) costs.

Definition eleven_countries : DataFrame :=
  one_row_each
    [("A", 1); ("B", 2); ("C", 3); ("D", 4); ("E", 5); ("F", 6);
     ("G", 7); ("H", 8); ("I", 9); ("J", 10); ("K", 11)]%Q.

Definition twenty_countries : DataFrame :=
  one_row_each
    [("A", 1); ("B", 2); ("C", 3); ("D", 4); ("E", 5); ("F", 6);
     ("G", 7); ("H", 8); ("I", 9); ("J", 10); ("K", 11); ("L", 12);
     ("M", 13); ("N", 14); ("O", 15); ("P", 16); ("Q", 17); ("R", 18);
     ("S", 19); ("T", 20)]%Q.

(** Twenty-one countries; the two cheapest have the same mean. *)
Definition twenty_one_countries : DataFrame :=
  one_row_each
    [("A", 1); ("B", 1); ("C", 3); ("D", 4); ("E", 5); ("F", 6);
     ("G", 7); ("H", 8); ("I", 9); ("J", 10); ("K", 11); ("L", 12);
     ("M", 13); ("N", 14); ("O", 15); ("P", 16); ("Q", 17); ("R", 18);
     ("S", 19); ("T", 20); ("U", 21)]%Q.

(** A frame whose rows all have the year 2020. *)
Definition single_year : DataFrame := [india; japan].

(** Twenty countries with one and the same mean. *)
Definition twenty_tied : DataFrame :=
  map (fun r => mkRow (region r) (country r) (year r) (cost_category r) 5 0)
      twenty_countries.

End Scenario.

(* ------------------------------------------------------------------ *)
(** ** Predicates the statements below are phrased with *)

Module Spec.
Import App.

(** The four predicates of a filter selection at one row. *)
Definition satisfies (sel : Selection) (r : Row) : Prop :=
  In (region r) (selected_regions sel)
  /\ In (country r) (selected_countries sel)
  /\ fst (selected_years sel) <= year r <= snd (selected_years sel)
  /\ In (cost_category r) (selected_category sel).

(** [Selects P l v]: [v] holds the elements of [l] that satisfy [P], each as
    often as in [l] and in the order of [l]. *)
Inductive Selects {A : Type} (P : A -> Prop) : list A -> list A -> Prop :=
| Selects_nil : Selects P [] []
| Selects_keep : forall x l v, P x -> Selects P l v -> Selects P (x :: l) (x :: v)
| Selects_drop : forall x l v, ~ P x -> Selects P l v -> Selects P (x :: l) v.

(** Two entries of a series compared by value with a boolean order. *)
Definition entry_le {K V : Type} (leb : V -> V -> bool) (a b : K * V) : Prop :=
  leb (snd a) (snd b) = true.

(** Two series with the same labels in the same order and equal values. *)
Definition series_eq {K : Type} (s t : list (K * Q)) : Prop :=
  Forall2 (fun a b => fst a = fst b /\ (snd a == snd b)%Q) s t.

(** No two entries of a series have equal values. *)
Fixpoint distinct_valuesb {K : Type} (s : list (K * Q)) : bool :=
  match s with
  | [] => true
  | x :: s' =>
      forallb (fun y => negb (Qeq_bool (snd x) (snd y))) s' && distinct_valuesb s'
  end.

Definition distinct_values {K : Type} (s : list (K * Q)) : Prop :=
  distinct_valuesb s = true.

(** The frame has rows of two different years. *)
Definition spans_years (df : DataFrame) : Prop :=
  exists r r', In r df /\ In r' df /\ year r <> year r'.

(** The number of distinct countries of a view. *)
Definition distinct_countries (view : DataFrame) : nat :=
  List.length (Pandas.unique (map country view)).

(** [first_max s c]: [c] labels the first entry of [s] whose value is the
    maximum: everything before it is strictly smaller, nothing after it is
    larger. *)
Definition first_max {K : Type} (s : list (K * Q)) (c : K) : Prop :=
  exists before m after,
    s = (before ++ (c, m) :: after)%list
    /\ Forall (fun e => (snd e < m)%Q) before
    /\ Forall (fun e => (snd e <= m)%Q) after.

Definition first_min {K : Type} (s : list (K * Q)) (c : K) : Prop :=
  exists before m after,
    s = (before ++ (c, m) :: after)%list
    /\ Forall (fun e => (m < snd e)%Q) before
    /\ Forall (fun e => (m <= snd e)%Q) after.

End Spec.

(* ------------------------------------------------------------------ *)
(** ** Further widget states and predicates *)

Module Widgets.
Import App.

(** Only the region widget has been changed, to [regions]; every other
    widget returns its default. *)
Definition only_regions (regions : list string) : Sidebar := {|
  multiselect := fun label _ default =>
    if String.eqb label "Select Region" then regions else default;
  slider := fun _ _ _ value => value
|}.

(** [narrower sel sel']: every choice of [sel] is also made in [sel'], and
    the year range of [sel] lies inside that of [sel']. *)
Definition narrower (sel sel' : Selection) : Prop :=
  incl (selected_regions sel) (selected_regions sel')
  /\ incl (selected_countries sel) (selected_countries sel')
  /\ fst (selected_years sel') <= fst (selected_years sel)
  /\ snd (selected_years sel) <= snd (selected_years sel')
  /\ incl (selected_category sel) (selected_category sel').

(** Every region, country, year and category of the three-row scenario. *)
Definition whole_scenario : Selection := {|
  selected_regions := ["Asia"; "Europe"];
  selected_countries := ["India"; "Japan"; "France"];
  selected_years := (2020, 2021);
  selected_category := ["Low"; "High"]
|}.

End Widgets.

(* ------------------------------------------------------------------ *)
(** ** Keys, membership and distinct values *)

Section KeyFacts.
Context {K : Type} `{GroupKey K}.

Lemma keqb_eq (x y : K) : keqb x y = true <-> x = y.
Proof.
  unfold keqb. rewrite <- kcmp_eq.
  destruct (kcmp x y); split; congruence.
Qed.

Lemma keqb_refl (x : K) : keqb x x = true.
Proof. apply keqb_eq. reflexivity. Qed.

Lemma keqb_neq (x y : K) : keqb x y = false <-> x <> y.
Proof.
  rewrite <- keqb_eq. destruct (keqb x y); split; congruence.
Qed.

Lemma keqb_sym (x y : K) : keqb x y = keqb y x.
Proof.
  destruct (keqb x y) eqn:E.
  - apply keqb_eq in E. subst. symmetry. apply keqb_refl.
  - symmetry. apply keqb_neq. apply keqb_neq in E. congruence.
Qed.

Lemma kcmp_refl (x : K) : kcmp x x = Eq.
Proof. apply kcmp_eq. reflexivity. Qed.

Lemma kcmp_gt_lt (x y : K) : kcmp x y = Gt -> kcmp y x = Lt.
Proof. intros E. rewrite kcmp_antisym, E. reflexivity. Qed.

Lemma klt_irrefl (x : K) : ~ klt x x.
Proof. unfold klt. rewrite kcmp_refl. discriminate. Qed.

Lemma isin_In (values : list K) (x : K) :
  Pandas.isin values x = true <-> In x values.
Proof.
  unfold Pandas.isin. rewrite existsb_exists. split.
  - intros [y [Hy E]]. apply keqb_eq in E. subst. exact Hy.
  - intros Hx. exists x. split; [exact Hx | apply keqb_refl].
Qed.

Lemma unique_In (l : list K) (x : K) : In x (Pandas.unique l) <-> In x l.
Proof.
  induction l as [| a l IH]; simpl; [reflexivity |].
  rewrite filter_In, IH. split.
  - intros [E | [Hx _]]; [left | right]; assumption.
  - intros [E | Hx]; [left; exact E |].
    destruct (keqb x a) eqn:Ea.
    + left. apply keqb_eq in Ea. congruence.
    + right. split; [exact Hx | reflexivity].
Qed.

Lemma unique_NoDup (l : list K) : NoDup (Pandas.unique l).
Proof.
  induction l as [| a l IH]; simpl; constructor.
  - rewrite filter_In. intros [_ E]. rewrite keqb_refl in E. discriminate.
  - apply NoDup_filter. exact IH.
Qed.

Lemma isin_unique (l : list K) (x : K) :
  In x l -> Pandas.isin (Pandas.unique l) x = true.
Proof. intros Hx. apply isin_In, unique_In, Hx. Qed.
End KeyFacts.

Lemma filter_all {A : Type} (f : A -> bool) (l : list A) :
  (forall x, In x l -> f x = true) -> filter f l = l.
Proof.
  induction l as [| a l IH]; intros Hall; simpl; [reflexivity |].
  rewrite (Hall a (or_introl eq_refl)). f_equal.
  apply IH. intros x Hx. apply Hall. right. exact Hx.
Qed.

Lemma between_iff (left right x : Z) :
  Pandas.between left right x = true <-> left <= x <= right.
Proof. unfold Pandas.between. rewrite andb_true_iff, !Z.leb_le. reflexivity. Qed.

(* ------------------------------------------------------------------ *)
(** ** The filter step *)

Lemma mask_satisfies (sel : App.Selection) (r : Row) :
  App.mask sel r = true <-> Spec.satisfies sel r.
Proof.
  unfold App.mask, Spec.satisfies.
  rewrite !andb_true_iff, !isin_In, between_iff. tauto.
Qed.

Lemma filter_Selects {A : Type} (f : A -> bool) (P : A -> Prop) (l : list A) :
  (forall x, f x = true <-> P x) -> Spec.Selects P l (filter f l).
Proof.
  intros HfP. induction l as [| a l IH]; simpl.
  - constructor.
  - destruct (f a) eqn:E.
    + apply Spec.Selects_keep; [apply HfP, E | exact IH].
    + apply Spec.Selects_drop; [| exact IH].
      intros Pa. apply HfP in Pa. congruence.
Qed.

(** C1. The filtered view holds exactly the rows of the dataset that pass
    all four predicates (region, country, inclusive year range, category),
    in the dataset's order; a row of the dataset that is not in the view
    fails at least one of the four. *)
Theorem filtered_df_exactly_matching (df : DataFrame) (sel : App.Selection) :
  Spec.Selects (Spec.satisfies sel) df (App.filtered_df df sel)
  /\ (forall r, In r (App.filtered_df df sel) <-> In r df /\ Spec.satisfies sel r)
  /\ (forall r, In r df -> ~ In r (App.filtered_df df sel) ->
        ~ In (region r) (App.selected_regions sel)
        \/ ~ In (country r) (App.selected_countries sel)
        \/ ~ (fst (App.selected_years sel) <= year r <= snd (App.selected_years sel))
        \/ ~ In (cost_category r) (App.selected_category sel)).
Proof.
  unfold App.filtered_df. split; [| split].
  - apply filter_Selects. intros r. apply mask_satisfies.
  - intros r. rewrite filter_In, mask_satisfies. reflexivity.
  - intros r Hr Hout. rewrite filter_In in Hout.
    assert (Hm : App.mask sel r = false).
    { destruct (App.mask sel r); [exfalso; apply Hout; split; auto | reflexivity]. }
    unfold App.mask in Hm. rewrite !andb_false_iff in Hm.
    destruct Hm as [[[Hm | Hm] | Hm] | Hm].
    + left. rewrite <- isin_In. congruence.
    + right; left. rewrite <- isin_In. congruence.
    + right; right; left. rewrite <- between_iff. congruence.
    + right; right; right. rewrite <- isin_In. congruence.
Qed.

(* ------------------------------------------------------------------ *)
(** ** The default selection *)

Lemma fold_left_min_le (l : list Z) (x y : Z) :
  In y (x :: l) -> fold_left Z.min l x <= y.
Proof.
  revert x y. induction l as [| a l IH]; intros x y Hy; simpl.
  - destruct Hy as [-> | []]. lia.
  - destruct Hy as [-> | [-> | Hy]].
    + pose proof (IH (Z.min y a) (Z.min y a) (or_introl eq_refl)). lia.
    + pose proof (IH (Z.min x y) (Z.min x y) (or_introl eq_refl)). lia.
    + apply IH. right. exact Hy.
Qed.

Lemma fold_left_max_ge (l : list Z) (x y : Z) :
  In y (x :: l) -> y <= fold_left Z.max l x.
Proof.
  revert x y. induction l as [| a l IH]; intros x y Hy; simpl.
  - destruct Hy as [-> | []]. lia.
  - destruct Hy as [-> | [-> | Hy]].
    + pose proof (IH (Z.max y a) (Z.max y a) (or_introl eq_refl)). lia.
    + pose proof (IH (Z.max x y) (Z.max x y) (or_introl eq_refl)). lia.
    + apply IH. right. exact Hy.
Qed.

Lemma Series_min_max_bounds (col : list Z) (lo hi x : Z) :
  Pandas.Series_min col = Some lo -> Pandas.Series_max col = Some hi ->
  In x col -> lo <= x <= hi.
Proof.
  destruct col as [| a col]; simpl; [discriminate |].
  intros [= <-] [= <-] Hx. split.
  - apply fold_left_min_le, Hx.
  - apply fold_left_max_ge, Hx.
Qed.

Lemma fold_left_min_In (l : list Z) (x : Z) : In (fold_left Z.min l x) (x :: l).
Proof.
  revert x. induction l as [| a l IH]; intros x; simpl.
  - left. reflexivity.
  - destruct (IH (Z.min x a)) as [E | Hin].
    + rewrite <- E.
      destruct (Z.min_spec x a) as [[_ Em] | [_ Em]]; rewrite Em; auto.
    + right. right. exact Hin.
Qed.

Lemma fold_left_max_In (l : list Z) (x : Z) : In (fold_left Z.max l x) (x :: l).
Proof.
  revert x. induction l as [| a l IH]; intros x; simpl.
  - left. reflexivity.
  - destruct (IH (Z.max x a)) as [E | Hin].
    + rewrite <- E.
      destruct (Z.max_spec x a) as [[_ Em] | [_ Em]]; rewrite Em; auto.
    + right. right. exact Hin.
Qed.

(** A frame has rows of two different years exactly when its smallest year
    is below its largest. *)
Lemma spans_years_bounds (r0 : Row) (df : DataFrame) :
  Spec.spans_years (r0 :: df) <->
  fold_left Z.min (map year df) (year r0) < fold_left Z.max (map year df) (year r0).
Proof.
  pose proof (fold_left_min_le (map year df) (year r0)) as Hmin.
  pose proof (fold_left_max_ge (map year df) (year r0)) as Hmax.
  split.
  - intros [r [r' [Hr [Hr' Hne]]]].
    apply (in_map year) in Hr. apply (in_map year) in Hr'.
    pose proof (Hmin _ Hr). pose proof (Hmin _ Hr').
    pose proof (Hmax _ Hr). pose proof (Hmax _ Hr'). lia.
  - intros Hlt.
    pose proof (fold_left_min_In (map year df) (year r0)) as Ilo.
    pose proof (fold_left_max_In (map year df) (year r0)) as Ihi.
    change (year r0 :: map year df) with (map year (r0 :: df)) in Ilo, Ihi.
    apply in_map_iff in Ilo. destruct Ilo as [r [Er Hr]].
    apply in_map_iff in Ihi. destruct Ihi as [r' [Er' Hr']].
    exists r, r'. split; [exact Hr |]. split; [exact Hr' |]. lia.
Qed.

Lemma spans_years_nil : ~ Spec.spans_years [].
Proof. intros [r [_ [[] _]]]. Qed.

(** The selection any widget state gives on a frame whose smallest year is
    below its largest. *)
Lemma sidebar_filters_span (ui : App.Sidebar) (r0 : Row) (df : DataFrame) :
  let regions := App.multiselect ui "Select Region"
                   (Pandas.unique (map region (r0 :: df)))
                   (Pandas.unique (map region (r0 :: df))) in
  let df_region := filter (fun r => Pandas.isin regions (region r)) (r0 :: df) in
  let lo := fold_left Z.min (map year df) (year r0) in
  let hi := fold_left Z.max (map year df) (year r0) in
  lo < hi ->
  App.sidebar_filters ui (r0 :: df) =
  ret {| App.selected_regions := regions;
         App.selected_countries :=
           App.multiselect ui "Select Country"
             (Pandas.unique (map country df_region))
             (Pandas.unique (map country df_region));
         App.selected_years := App.slider ui "Select Year Range" lo hi (lo, hi);
         App.selected_category :=
           App.multiselect ui "Cost Category"
             (Pandas.unique (map cost_category (r0 :: df)))
             (Pandas.unique (map cost_category (r0 :: df))) |}.
Proof.
  intros regions df_region lo hi Hlt.
  unfold App.sidebar_filters, App.st_slider.
  cbn [map Pandas.Series_min Pandas.Series_max Pandas.int bind ret].
  fold lo. fold hi. rewrite (proj2 (Z.ltb_lt lo hi) Hlt). reflexivity.
Qed.

(** On a frame whose rows all have one year the slider is refused. *)
Lemma sidebar_filters_one_year (ui : App.Sidebar) (r0 : Row) (df : DataFrame) :
  ~ Spec.spans_years (r0 :: df) ->
  App.sidebar_filters ui (r0 :: df)
  = raise (StreamlitAPIException
             "Slider min_value must be less than the max_value").
Proof.
  intros Hno. rewrite spans_years_bounds in Hno.
  unfold App.sidebar_filters, App.st_slider.
  cbn [map Pandas.Series_min Pandas.Series_max Pandas.int bind ret].
  rewrite (proj2 (Z.ltb_ge _ _)) by lia. reflexivity.
Qed.

(** The selection the untouched widgets return on such a frame. *)
Lemma sidebar_filters_untouched (r0 : Row) (df : DataFrame) :
  Spec.spans_years (r0 :: df) ->
  App.sidebar_filters App.untouched (r0 :: df) =
  ret {| App.selected_regions := Pandas.unique (map region (r0 :: df));
         App.selected_countries := Pandas.unique (map country (r0 :: df));
         App.selected_years :=
           (fold_left Z.min (map year df) (year r0),
            fold_left Z.max (map year df) (year r0));
         App.selected_category := Pandas.unique (map cost_category (r0 :: df)) |}.
Proof.
  intros Hspan. apply spans_years_bounds in Hspan.
  rewrite (sidebar_filters_span App.untouched r0 df Hspan).
  cbn [App.untouched App.multiselect App.slider].
  rewrite (filter_all (fun r => Pandas.isin _ (region r)) (r0 :: df)).
  - reflexivity.
  - intros r Hr. apply isin_unique, in_map, Hr.
Qed.

(** C4, as amended. On every dataset that has rows of two different years
    the default selection (every region, every country, every category and
    the year range from the smallest to the largest year of the dataset) is
    produced and the filtered view is the dataset itself, same rows in the
    same order. *)
Theorem default_selection_keeps_dataset (df : DataFrame) :
  Spec.spans_years df ->
  exists sel,
    App.sidebar_filters App.untouched df = ret sel
    /\ App.selected_regions sel = Pandas.unique (map region df)
    /\ App.selected_countries sel = Pandas.unique (map country df)
    /\ Pandas.Series_min (map year df) = Some (fst (App.selected_years sel))
    /\ Pandas.Series_max (map year df) = Some (snd (App.selected_years sel))
    /\ App.selected_category sel = Pandas.unique (map cost_category df)
    /\ App.filtered_df df sel = df.
Proof.
  destruct df as [| r0 df]; [intros H; destruct (spans_years_nil H) |].
  intros Hspan.
  eexists. split; [apply sidebar_filters_untouched, Hspan |].
  cbn [App.selected_regions App.selected_countries App.selected_years
       App.selected_category fst snd].
  repeat (split; [reflexivity |]).
  unfold App.filtered_df. apply filter_all. intros r Hr.
  apply mask_satisfies. unfold Spec.satisfies.
  cbn [App.selected_regions App.selected_countries App.selected_years
       App.selected_category fst snd].
  repeat split.
  - apply unique_In, in_map, Hr.
  - apply unique_In, in_map, Hr.
  - apply fold_left_min_le. apply (in_map year) in Hr. exact Hr.
  - apply fold_left_max_ge. apply (in_map year) in Hr. exact Hr.
  - apply unique_In, in_map, Hr.
Qed.

Lemma default_selection_keeps_dataset_witness :
  exists sel,
    App.sidebar_filters App.untouched Scenario.dataset = ret sel
    /\ App.selected_regions sel = Pandas.unique (map region Scenario.dataset)
    /\ App.selected_countries sel = Pandas.unique (map country Scenario.dataset)
    /\ Pandas.Series_min (map year Scenario.dataset) = Some (fst (App.selected_years sel))
    /\ Pandas.Series_max (map year Scenario.dataset) = Some (snd (App.selected_years sel))
    /\ App.selected_category sel = Pandas.unique (map cost_category Scenario.dataset)
    /\ App.filtered_df Scenario.dataset sel = Scenario.dataset.
Proof.
  apply (default_selection_keeps_dataset Scenario.dataset).
  exists Scenario.india, Scenario.france. simpl.
  split; [auto |]. split; [auto | discriminate].
Defined.

(** C4 as stated fails on two datasets.  On the dataset without rows,
    [int] of the NaN that [min] of the empty year column gives raises.  On a
    dataset whose rows all have one year, the slider is refused because its
    bounds coincide.  In both no default selection and no filtered view are
    produced. *)
Lemma default_selection_needs_two_years :
  App.sidebar_filters App.untouched [] =
    raise (ValueError "cannot convert float NaN to integer")
  /\ ~ (exists sel, App.sidebar_filters App.untouched [] = ret sel
                    /\ App.filtered_df [] sel = [])
  /\ Scenario.single_year <> []
  /\ (exists msg, App.sidebar_filters App.untouched Scenario.single_year
                  = raise (StreamlitAPIException msg))
  /\ ~ (exists sel, App.sidebar_filters App.untouched Scenario.single_year = ret sel
                    /\ App.filtered_df Scenario.single_year sel
                       = Scenario.single_year).
Proof.
  split; [reflexivity |].
  split; [intros [sel [E _]]; discriminate E |].
  split; [discriminate |].
  split; [eexists; reflexivity |].
  intros [sel [E _]]. discriminate E.
Qed.

(* ------------------------------------------------------------------ *)
(** ** Sorting a series by value *)

Lemma StronglySorted_snoc {A : Type} (R : A -> A -> Prop) (l : list A) (x : A) :
  StronglySorted R l -> Forall (fun y => R y x) l -> StronglySorted R (l ++ [x]).
Proof.
  induction 1 as [| a l SS IH Ha]; intros Hall; simpl.
  - repeat constructor.
  - inversion Hall as [| ? ? Rax Hall']; subst.
    constructor; [apply IH, Hall' |].
    apply Forall_app. split; [exact Ha | repeat constructor; exact Rax].
Qed.

Lemma StronglySorted_rev {A : Type} (R : A -> A -> Prop) (l : list A) :
  StronglySorted R l -> StronglySorted (fun a b => R b a) (rev l).
Proof.
  induction 1 as [| a l SS IH Ha]; simpl; [constructor |].
  apply StronglySorted_snoc; [exact IH |].
  apply Forall_rev. exact Ha.
Qed.

Lemma StronglySorted_weaken {A : Type} (R R' : A -> A -> Prop) (l : list A) :
  (forall a b, R a b -> R' a b) -> StronglySorted R l -> StronglySorted R' l.
Proof.
  intros HR. induction 1 as [| a l SS IH Ha]; constructor; [exact IH |].
  eapply Forall_impl; [| exact Ha]. intros b. apply HR.
Qed.

Section SortFacts.
Context {K V : Type} (leb : V -> V -> bool).
Hypothesis leb_total : forall a b, leb a b = true \/ leb b a = true.
Hypothesis leb_trans :
  forall a b c, leb a b = true -> leb b c = true -> leb a c = true.

Lemma insert_by_Permutation (x : K * V) (l : list (K * V)) :
  Permutation (x :: l) (Pandas.insert_by leb x l).
Proof.
  induction l as [| y l IH]; simpl; [reflexivity |].
  destruct (leb (snd x) (snd y)); [reflexivity |].
  rewrite perm_swap. apply perm_skip, IH.
Qed.

Lemma sort_asc_Permutation (l : list (K * V)) :
  Permutation l (Pandas.sort_asc leb l).
Proof.
  induction l as [| x l IH]; simpl; [reflexivity |].
  rewrite <- insert_by_Permutation. apply perm_skip, IH.
Qed.

Lemma sort_values_Permutation (ascending : bool) (l : list (K * V)) :
  Permutation l (Pandas.sort_values leb ascending l).
Proof.
  unfold Pandas.sort_values. destruct ascending.
  - apply sort_asc_Permutation.
  - rewrite <- Permutation_rev, <- sort_asc_Permutation. apply Permutation_rev.
Qed.

Lemma insert_by_sorted (x : K * V) (l : list (K * V)) :
  StronglySorted (Spec.entry_le leb) l -> StronglySorted (Spec.entry_le leb) (Pandas.insert_by leb x l).
Proof.
  induction 1 as [| y l SS IH Hy]; simpl.
  - repeat constructor.
  - destruct (leb (snd x) (snd y)) eqn:E.
    + constructor; [constructor; assumption |].
      constructor; [exact E |].
      eapply Forall_impl; [| exact Hy].
      intros z Hz. unfold Spec.entry_le in *. eapply leb_trans; eassumption.
    + constructor; [exact IH |].
      rewrite <- insert_by_Permutation. constructor; [| exact Hy].
      unfold Spec.entry_le. destruct (leb_total (snd x) (snd y)); congruence.
Qed.

Lemma sort_asc_sorted (l : list (K * V)) :
  StronglySorted (Spec.entry_le leb) (Pandas.sort_asc leb l).
Proof.
  induction l as [| x l IH]; simpl; [constructor |].
  apply insert_by_sorted, IH.
Qed.

Lemma sort_values_sorted (ascending : bool) (l : list (K * V)) :
  StronglySorted (fun a b => if ascending then (Spec.entry_le leb) a b else (Spec.entry_le leb) b a)
                 (Pandas.sort_values leb ascending l).
Proof.
  unfold Pandas.sort_values. destruct ascending.
  - apply sort_asc_sorted.
  - apply StronglySorted_rev, sort_asc_sorted.
Qed.
End SortFacts.

Lemma Qle_bool_total (a b : Q) : Qle_bool a b = true \/ Qle_bool b a = true.
Proof.
  rewrite !Qle_bool_iff.
  destruct (Qlt_le_dec a b) as [L | L]; [left; apply Qlt_le_weak, L | right; exact L].
Qed.

Lemma Qle_bool_trans (a b c : Q) :
  Qle_bool a b = true -> Qle_bool b c = true -> Qle_bool a c = true.
Proof. rewrite !Qle_bool_iff. apply Qle_trans. Qed.

Lemma Qle_bool_false (a b : Q) : Qle_bool a b = false -> (b < a)%Q.
Proof.
  intros E. apply Qnot_le_lt. intros L. apply Qle_bool_iff in L. congruence.
Qed.

(** A series sorted by value, in either direction, in terms of [<=]. *)
Lemma sort_values_Qle (K : Type) (ascending : bool) (s : list (K * Q)) :
  StronglySorted
    (fun a b => if ascending then (snd a <= snd b)%Q else (snd b <= snd a)%Q)
    (Pandas.sort_values Qle_bool ascending s).
Proof.
  pose proof (sort_values_sorted Qle_bool Qle_bool_total Qle_bool_trans ascending s) as SS.
  eapply StronglySorted_weaken; [| exact SS].
  intros a b. unfold Spec.entry_le. destruct ascending; apply Qle_bool_iff.
Qed.

(* ------------------------------------------------------------------ *)
(** ** Grouping *)

Section GroupFacts.
Context {K : Type} `{GroupKey K}.

Lemma insert_key_In (k : K) (ks : list K) (x : K) :
  In x (Pandas.insert_key k ks) <-> x = k \/ In x ks.
Proof.
  induction ks as [| k' ks IH]; simpl.
  - intuition congruence.
  - destruct (kcmp k k') eqn:E; simpl.
    + apply kcmp_eq in E. subst k'. intuition congruence.
    + intuition congruence.
    + rewrite IH. intuition congruence.
Qed.

Lemma group_keys_In (col : list K) (x : K) :
  In x (Pandas.group_keys col) <-> In x col.
Proof.
  unfold Pandas.group_keys. induction col as [| a col IH]; simpl.
  - reflexivity.
  - rewrite insert_key_In, IH. intuition congruence.
Qed.

Lemma insert_key_sorted (k : K) (ks : list K) :
  StronglySorted klt ks -> StronglySorted klt (Pandas.insert_key k ks).
Proof.
  induction 1 as [| k' ks SS IH Hk']; simpl.
  - repeat constructor.
  - destruct (kcmp k k') eqn:E.
    + constructor; assumption.
    + constructor; [constructor; assumption |].
      constructor; [exact E |].
      eapply Forall_impl; [| exact Hk'].
      intros y Hy. exact (kcmp_trans _ _ _ E Hy).
    + constructor; [exact IH |].
      apply Forall_forall. intros y Hy. apply insert_key_In in Hy.
      destruct Hy as [-> | Hy].
      * apply kcmp_gt_lt, E.
      * rewrite Forall_forall in Hk'. apply Hk', Hy.
Qed.

Lemma group_keys_sorted (col : list K) :
  StronglySorted klt (Pandas.group_keys col).
Proof.
  unfold Pandas.group_keys. induction col as [| a col IH]; simpl.
  - constructor.
  - apply insert_key_sorted, IH.
Qed.

Lemma klt_sorted_NoDup (l : list K) : StronglySorted klt l -> NoDup l.
Proof.
  induction 1 as [| a l SS IH Ha]; constructor; [| exact IH].
  intros Hin. rewrite Forall_forall in Ha.
  exact (klt_irrefl a (Ha a Hin)).
Qed.

Lemma group_keys_NoDup (col : list K) : NoDup (Pandas.group_keys col).
Proof. apply klt_sorted_NoDup, group_keys_sorted. Qed.

Lemma group_keys_unique (col : list K) :
  Permutation (Pandas.group_keys col) (Pandas.unique col).
Proof.
  apply NoDup_Permutation.
  - apply group_keys_NoDup.
  - apply unique_NoDup.
  - intros x. rewrite group_keys_In, unique_In. reflexivity.
Qed.

Lemma groupby_mean_keys (key : Row -> K) (val : Row -> Q) (df : DataFrame) :
  map fst (Pandas.groupby_mean key val df) = Pandas.group_keys (map key df).
Proof.
  unfold Pandas.groupby_mean. rewrite map_map. simpl. apply map_id.
Qed.

Lemma groupby_mean_length (key : Row -> K) (val : Row -> Q) (df : DataFrame) :
  List.length (Pandas.groupby_mean key val df)
  = List.length (Pandas.unique (map key df)).
Proof.
  rewrite <- (length_map fst), groupby_mean_keys.
  apply Permutation_length, group_keys_unique.
Qed.

Lemma groupby_mean_sorted (key : Row -> K) (val : Row -> Q) (df : DataFrame) :
  StronglySorted (fun a b => klt (fst a) (fst b)) (Pandas.groupby_mean key val df).
Proof.
  unfold Pandas.groupby_mean.
  induction (group_keys_sorted (map key df)) as [| k ks SS IH Hk]; simpl.
  - constructor.
  - constructor; [exact IH |].
    apply Forall_map. simpl. exact Hk.
Qed.

Lemma groupby_mean_entry (key : Row -> K) (val : Row -> Q) (df : DataFrame)
    (k : K) (m : Q) :
  In (k, m) (Pandas.groupby_mean key val df) <->
  In k (map key df) /\ m = Pandas.Qmean (map val (Pandas.get_group key k df)).
Proof.
  unfold Pandas.groupby_mean. rewrite in_map_iff. split.
  - intros [k' [[= <- <-] Hk]]. split; [| reflexivity].
    exact (proj1 (group_keys_In _ _) Hk).
  - intros [Hk ->]. exists k. split; [reflexivity | apply group_keys_In, Hk].
Qed.

(** A group that has a key in the frame has a row. *)
Lemma get_group_nonempty (key : Row -> K) (k : K) (df : DataFrame) :
  In k (map key df) -> Pandas.get_group key k df <> [].
Proof.
  intros Hk. apply in_map_iff in Hk. destruct Hk as [r [<- Hr]].
  intros E. assert (Hin : In r (Pandas.get_group key (key r) df)).
  { apply filter_In. split; [exact Hr | apply keqb_refl]. }
  rewrite E in Hin. exact Hin.
Qed.

(** The value of an entry is [Series.mean()] of its group, which is not NaN
    because the group has a row. *)
Lemma groupby_mean_Series_mean (key : Row -> K) (val : Row -> Q) (df : DataFrame)
    (k : K) (m : Q) :
  In (k, m) (Pandas.groupby_mean key val df) ->
  Pandas.Series_mean (map val (Pandas.get_group key k df)) = Fin m.
Proof.
  intros Hin. apply groupby_mean_entry in Hin. destruct Hin as [Hk ->].
  pose proof (get_group_nonempty key k df Hk) as Hne.
  destruct (Pandas.get_group key k df) as [| r g]; [congruence | reflexivity].
Qed.

Lemma groupby_mean_nonempty (key : Row -> K) (val : Row -> Q) (df : DataFrame) :
  df <> [] -> Pandas.groupby_mean key val df <> [].
Proof.
  destruct df as [| r df]; [congruence |]. intros _ E.
  assert (Hin : In (key r) (map fst (Pandas.groupby_mean key val (r :: df)))).
  { rewrite groupby_mean_keys. apply group_keys_In. left. reflexivity. }
  rewrite E in Hin. exact Hin.
Qed.
End GroupFacts.

(** C10. The Region Average series has one row per region of the view with
    the mean daily cost of that region's rows, in ascending order of the
    region name; the Yearly Trend series has one row per year of the view, in
    ascending order of the year. *)
Theorem region_and_yearly_series_ascending (view : DataFrame) :
  StronglySorted (fun a b => String_as_OT.lt (fst a) (fst b)) (App.region_avg view)
  /\ StronglySorted (fun a b => fst a < fst b) (App.yearly_avg view)
  /\ (forall r m, In (r, m) (App.region_avg view) <->
        In r (map region view)
        /\ m = Pandas.Qmean (map cost_healthy_diet_ppp_usd
                                 (Pandas.get_group region r view)))
  /\ (forall y m, In (y, m) (App.yearly_avg view) <->
        In y (map year view)
        /\ m = Pandas.Qmean (map cost_healthy_diet_ppp_usd
                                 (Pandas.get_group year y view)))
  /\ NoDup (map fst (App.region_avg view))
  /\ NoDup (map fst (App.yearly_avg view)).
Proof.
  unfold App.region_avg, App.yearly_avg.
  split; [| split; [| split; [| split; [| split]]]].
  - exact (groupby_mean_sorted region cost_healthy_diet_ppp_usd view).
  - exact (groupby_mean_sorted year cost_healthy_diet_ppp_usd view).
  - intros r m. apply groupby_mean_entry.
  - intros y m. apply groupby_mean_entry.
  - rewrite groupby_mean_keys. apply group_keys_NoDup.
  - rewrite groupby_mean_keys. apply group_keys_NoDup.
Qed.

(* ------------------------------------------------------------------ *)
(** ** The extreme countries *)

Section ArgFacts.
Context {K : Type}.

Lemma argmax_from_split (l : list (K * Q)) (b : K * Q) :
  (snd b <= snd (Pandas.argmax_from b l))%Q
  /\ exists before after,
       b :: l = (before ++ Pandas.argmax_from b l :: after)%list
       /\ Forall (fun e => (snd e < snd (Pandas.argmax_from b l))%Q) before
       /\ Forall (fun e => (snd e <= snd (Pandas.argmax_from b l))%Q) after.
Proof.
  revert b. induction l as [| x l IH]; intros b; simpl.
  - split; [apply Qle_refl |]. exists [], []. repeat constructor.
  - destruct (Qle_bool (snd x) (snd b)) eqn:E.
    + destruct (IH b) as [Hb [before [after [Eq [Hbef Haft]]]]].
      split; [exact Hb |].
      remember (Pandas.argmax_from b l) as m eqn:Em. clear Em.
      apply Qle_bool_iff in E.
      destruct before as [| b0 before]; simpl in Eq.
      * injection Eq as Eb El. exists [], (x :: after). simpl.
        split; [rewrite <- Eb, <- El; reflexivity |].
        split; [constructor |].
        constructor; [rewrite <- Eb; exact E | exact Haft].
      * injection Eq as Eb El. subst b0.
        exists (b :: x :: before), after. simpl.
        split; [rewrite El; reflexivity |].
        inversion Hbef as [| ? ? Hbm Hbef']; subst.
        split; [| exact Haft].
        constructor; [exact Hbm |].
        constructor; [exact (Qle_lt_trans _ _ _ E Hbm) | exact Hbef'].
    + destruct (IH x) as [Hx [before [after [Eq [Hbef Haft]]]]].
      remember (Pandas.argmax_from x l) as m eqn:Em. clear Em.
      apply Qle_bool_false in E.
      assert (Hbm : (snd b < snd m)%Q) by exact (Qlt_le_trans _ _ _ E Hx).
      split; [apply Qlt_le_weak, Hbm |].
      exists (b :: before), after. simpl.
      split; [rewrite Eq; reflexivity |].
      split; [constructor; assumption | exact Haft].
Qed.

Lemma argmin_from_split (l : list (K * Q)) (b : K * Q) :
  (snd (Pandas.argmin_from b l) <= snd b)%Q
  /\ exists before after,
       b :: l = (before ++ Pandas.argmin_from b l :: after)%list
       /\ Forall (fun e => (snd (Pandas.argmin_from b l) < snd e)%Q) before
       /\ Forall (fun e => (snd (Pandas.argmin_from b l) <= snd e)%Q) after.
Proof.
  revert b. induction l as [| x l IH]; intros b; simpl.
  - split; [apply Qle_refl |]. exists [], []. repeat constructor.
  - destruct (Qle_bool (snd b) (snd x)) eqn:E.
    + destruct (IH b) as [Hb [before [after [Eq [Hbef Haft]]]]].
      split; [exact Hb |].
      remember (Pandas.argmin_from b l) as m eqn:Em. clear Em.
      apply Qle_bool_iff in E.
      destruct before as [| b0 before]; simpl in Eq.
      * injection Eq as Eb El. exists [], (x :: after). simpl.
        split; [rewrite <- Eb, <- El; reflexivity |].
        split; [constructor |].
        constructor; [rewrite <- Eb; exact E | exact Haft].
      * injection Eq as Eb El. subst b0.
        exists (b :: x :: before), after. simpl.
        split; [rewrite El; reflexivity |].
        inversion Hbef as [| ? ? Hbm Hbef']; subst.
        split; [| exact Haft].
        constructor; [exact Hbm |].
        constructor; [exact (Qlt_le_trans _ _ _ Hbm E) | exact Hbef'].
    + destruct (IH x) as [Hx [before [after [Eq [Hbef Haft]]]]].
      remember (Pandas.argmin_from x l) as m eqn:Em. clear Em.
      apply Qle_bool_false in E.
      assert (Hbm : (snd m < snd b)%Q) by exact (Qle_lt_trans _ _ _ Hx E).
      split; [apply Qlt_le_weak, Hbm |].
      exists (b :: before), after. simpl.
      split; [rewrite Eq; reflexivity |].
      split; [constructor; assumption | exact Haft].
Qed.

Lemma idxmax_first_max (s : list (K * Q)) (c : K) :
  Pandas.idxmax s = ret c -> Spec.first_max s c.
Proof.
  destruct s as [| b l]; simpl; [discriminate |].
  intros [= <-].
  destruct (argmax_from_split l b) as [_ [before [after [Eq [Hbef Haft]]]]].
  exists before, (snd (Pandas.argmax_from b l)), after.
  rewrite <- surjective_pairing. auto.
Qed.

Lemma idxmin_first_min (s : list (K * Q)) (c : K) :
  Pandas.idxmin s = ret c -> Spec.first_min s c.
Proof.
  destruct s as [| b l]; simpl; [discriminate |].
  intros [= <-].
  destruct (argmin_from_split l b) as [_ [before [after [Eq [Hbef Haft]]]]].
  exists before, (snd (Pandas.argmin_from b l)), after.
  rewrite <- surjective_pairing. auto.
Qed.

Lemma idxmax_nonempty (s : list (K * Q)) :
  s <> [] -> exists c, Pandas.idxmax s = ret c.
Proof. destruct s; [congruence | intros _; eexists; reflexivity]. Qed.

Lemma idxmin_nonempty (s : list (K * Q)) :
  s <> [] -> exists c, Pandas.idxmin s = ret c.
Proof. destruct s; [congruence | intros _; eexists; reflexivity]. Qed.
End ArgFacts.

Lemma StronglySorted_middle {A : Type} (R : A -> A -> Prop) (l1 l2 : list A) (x : A) :
  StronglySorted R (l1 ++ x :: l2) ->
  Forall (fun y => R y x) l1 /\ Forall (R x) l2.
Proof.
  induction l1 as [| a l1 IH]; simpl; intros SS.
  - inversion SS; subst. split; [constructor | assumption].
  - inversion SS as [| ? ? SS' Ha]; subst.
    destruct (IH SS') as [H1 H2]. split; [| exact H2].
    constructor; [| exact H1].
    rewrite Forall_forall in Ha. apply Ha, in_elt.
Qed.

Section TieFacts.
Context {K : Type} `{GroupKey K}.

(** In a series with ascending keys, an entry that ties with the first
    maximum has a later key. *)
Lemma first_max_tie (s : list (K * Q)) (c : K) :
  StronglySorted (fun a b => klt (fst a) (fst b)) s ->
  Spec.first_max s c ->
  forall m c' m', In (c, m) s -> In (c', m') s -> (m' == m)%Q ->
                  c' = c \/ klt c c'.
Proof.
  intros SS [before [m0 [after [-> [Hbef Haft]]]]] m c' m' Hc Hc' Etie.
  destruct (StronglySorted_middle _ _ _ _ SS) as [Hlt Hgt].
  rewrite Forall_forall in Hbef, Hlt, Hgt. simpl in Hlt, Hgt.
  assert (Em : m = m0).
  { apply in_app_or in Hc. destruct Hc as [Hc | [Hc | Hc]].
    - destruct (klt_irrefl c (Hlt _ Hc)).
    - congruence.
    - destruct (klt_irrefl c (Hgt _ Hc)). }
  subst m0. apply in_app_or in Hc'. destruct Hc' as [Hc' | [Hc' | Hc']].
  - specialize (Hbef _ Hc'). simpl in Hbef. rewrite Etie in Hbef.
    destruct (Qlt_irrefl _ Hbef).
  - left. congruence.
  - right. exact (Hgt _ Hc').
Qed.

Lemma first_min_tie (s : list (K * Q)) (c : K) :
  StronglySorted (fun a b => klt (fst a) (fst b)) s ->
  Spec.first_min s c ->
  forall m c' m', In (c, m) s -> In (c', m') s -> (m' == m)%Q ->
                  c' = c \/ klt c c'.
Proof.
  intros SS [before [m0 [after [-> [Hbef Haft]]]]] m c' m' Hc Hc' Etie.
  destruct (StronglySorted_middle _ _ _ _ SS) as [Hlt Hgt].
  rewrite Forall_forall in Hbef, Hlt, Hgt. simpl in Hlt, Hgt.
  assert (Em : m = m0).
  { apply in_app_or in Hc. destruct Hc as [Hc | [Hc | Hc]].
    - destruct (klt_irrefl c (Hlt _ Hc)).
    - congruence.
    - destruct (klt_irrefl c (Hgt _ Hc)). }
  subst m0. apply in_app_or in Hc'. destruct Hc' as [Hc' | [Hc' | Hc']].
  - specialize (Hbef _ Hc'). simpl in Hbef. rewrite Etie in Hbef.
    destruct (Qlt_irrefl _ Hbef).
  - left. congruence.
  - right. exact (Hgt _ Hc').
Qed.
End TieFacts.

Lemma country_avg_cost_nonempty (view : DataFrame) :
  view <> [] -> App.country_avg_cost view <> [].
Proof. apply groupby_mean_nonempty. Qed.

(** C7. On a view with a row both extreme countries are returned.  The
    highest-cost country labels the first entry, in the grouping's ascending
    order of country names, that attains the maximum mean; every country that
    ties with it comes later in that order.  The same holds for the
    lowest-cost country and the minimum.  Both are functions of the view. *)
Theorem extreme_country_first_in_group_order (view : DataFrame) :
  (view <> [] ->
     exists hi lo, App.highest_cost_country view = ret hi
                   /\ App.lowest_cost_country view = ret lo)
  /\ (forall c, App.highest_cost_country view = ret c ->
        Spec.first_max (App.country_avg_cost view) c
        /\ forall m c' m', In (c, m) (App.country_avg_cost view) ->
                           In (c', m') (App.country_avg_cost view) ->
                           (m' == m)%Q -> c' = c \/ String_as_OT.lt c c')
  /\ (forall c, App.lowest_cost_country view = ret c ->
        Spec.first_min (App.country_avg_cost view) c
        /\ forall m c' m', In (c, m) (App.country_avg_cost view) ->
                           In (c', m') (App.country_avg_cost view) ->
                           (m' == m)%Q -> c' = c \/ String_as_OT.lt c c').
Proof.
  pose proof (groupby_mean_sorted country cost_healthy_diet_ppp_usd view) as SS.
  fold (App.country_avg_cost view) in SS.
  unfold App.highest_cost_country, App.lowest_cost_country.
  split; [| split].
  - intros Hview. apply country_avg_cost_nonempty in Hview.
    destruct (idxmax_nonempty _ Hview) as [hi Ehi].
    destruct (idxmin_nonempty _ Hview) as [lo Elo].
    exists hi, lo. split; assumption.
  - intros c Ec. apply idxmax_first_max in Ec. split; [exact Ec |].
    exact (first_max_tie _ _ SS Ec).
  - intros c Ec. apply idxmin_first_min in Ec. split; [exact Ec |].
    exact (first_min_tie _ _ SS Ec).
Qed.

(* ------------------------------------------------------------------ *)
(** ** The run on an empty view *)

(** C2 fails on the code. When the filtered view has no row, [idxmax] of the
    empty per-country series raises, and the run ends there: no chart, table,
    download or insight is produced. *)
Theorem render_empty_view_raises (df : DataFrame) (sel : App.Selection) :
  App.filtered_df df sel = [] ->
  App.render df sel = raise (ValueError "attempt to get argmax of an empty sequence").
Proof.
  intros E. unfold App.render. rewrite E. reflexivity.
Qed.

Lemma render_empty_view_raises_witness :
  App.filtered_df Scenario.dataset Scenario.no_region = []
  /\ App.render Scenario.dataset Scenario.no_region
     = raise (ValueError "attempt to get argmax of an empty sequence").
Proof.
  split; [reflexivity |].
  apply (render_empty_view_raises Scenario.dataset Scenario.no_region).
  reflexivity.
Defined.

(** What the stages other than [idxmax] and [idxmin] give on a view without
    rows: NaN means, empty series, no insight. *)
Lemma empty_view_outputs :
  App.avg_daily_cost [] = NaN
  /\ App.avg_annual_cost [] = NaN
  /\ App.country_avg_cost [] = []
  /\ App.yearly_avg [] = []
  /\ App.region_avg [] = []
  /\ App.top10 [] = []
  /\ App.bottom10 [] = []
  /\ App.cat_data [] = []
  /\ App.highest_cost_country []
     = raise (ValueError "attempt to get argmax of an empty sequence")
  /\ App.lowest_cost_country []
     = raise (ValueError "attempt to get argmin of an empty sequence").
Proof. repeat split; reflexivity. Qed.

(** The same run from the widgets: the user has deselected every region. *)
Lemma script_no_region_raises :
  App.script (App.chosen Scenario.no_region) Scenario.dataset
  = raise (ValueError "attempt to get argmax of an empty sequence").
Proof. reflexivity. Qed.

(* ------------------------------------------------------------------ *)
(** ** The insight block *)

Lemma iloc_first {A : Type} (x : A) (l : list A) : Pandas.iloc (x :: l) 0 = ret x.
Proof.
  unfold Pandas.iloc. cbn [Z.ltb Z.compare Z.leb andb].
  replace (0 <? Z.of_nat (List.length (x :: l))) with true.
  - reflexivity.
  - symmetry. apply Z.ltb_lt. simpl List.length. lia.
Qed.

Lemma iloc_last {A : Type} (l : list A) (x : A) :
  Pandas.iloc (l ++ [x]) (-1) = ret x.
Proof.
  unfold Pandas.iloc. cbn [Z.ltb Z.compare].
  rewrite length_app. simpl List.length.
  replace (-1 + Z.of_nat (List.length l + 1)) with (Z.of_nat (List.length l)) by lia.
  replace (0 <=? Z.of_nat (List.length l)) with true
    by (symmetry; apply Z.leb_le; lia).
  replace (Z.of_nat (List.length l) <? Z.of_nat (List.length l + 1)) with true
    by (symmetry; apply Z.ltb_lt; lia).
  cbn [andb]. rewrite Nat2Z.id.
  rewrite nth_error_app2 by lia. rewrite Nat.sub_diag. reflexivity.
Qed.

Lemma iloc_last_cons {A : Type} (x : A) (l : list A) :
  Pandas.iloc (x :: l) (-1) = ret (last (x :: l) x).
Proof.
  destruct (exists_last (l := x :: l)) as [l' [z E]]; [discriminate |].
  rewrite E, iloc_last, last_last. reflexivity.
Qed.

Lemma sort_values_nonempty {K : Type} (ascending : bool) (s : list (K * Q)) :
  s <> [] -> exists e rest, Pandas.sort_values Qle_bool ascending s = e :: rest.
Proof.
  intros Hs.
  pose proof (sort_values_Permutation Qle_bool ascending s) as P.
  destruct (Pandas.sort_values Qle_bool ascending s) as [| e rest].
  - apply Permutation_sym, Permutation_nil in P. congruence.
  - exists e, rest. reflexivity.
Qed.

(** The block on a non-empty pair of series. *)
Lemma insights_some (y0 : Z * Q) (rest : list (Z * Q)) (regional : list (string * Q))
    (years : Z * Z) (highest lowest : string) (daily annual : float64) :
  regional <> [] ->
  exists ins,
    App.insights (y0 :: rest) regional years highest lowest daily annual
    = ret (Some ins)
    /\ App.cost_change ins = (snd (last (y0 :: rest) y0) - snd y0)%Q
    /\ App.between_years ins = years
    /\ App.most_expensive_country ins = highest
    /\ App.least_expensive_country ins = lowest
    /\ App.spend_per_day ins = daily
    /\ App.spend_per_year ins = annual.
Proof.
  intros Hreg. unfold App.insights.
  destruct (sort_values_nonempty false regional Hreg) as [e [tl Es]].
  destruct regional as [| r0 regional]; [congruence |].
  cbn [App.empty negb andb].
  rewrite iloc_last_cons, iloc_first, Es, iloc_first.
  cbn [bind ret]. eexists. split; [reflexivity |].
  cbn. repeat split; reflexivity.
Qed.

(** C5. When the insight block runs, its cost change is the last yearly
    average minus the first; with exactly one yearly average the change is 0;
    with no yearly average the block emits nothing and raises nothing. *)
Theorem insights_cost_change :
  (forall y0 rest regional years highest lowest daily annual,
      regional <> [] ->
      exists ins,
        App.insights (y0 :: rest) regional years highest lowest daily annual
        = ret (Some ins)
        /\ App.cost_change ins = (snd (last (y0 :: rest) y0) - snd y0)%Q)
  /\ (forall y0 regional years highest lowest daily annual,
      regional <> [] ->
      exists ins,
        App.insights [y0] regional years highest lowest daily annual
        = ret (Some ins)
        /\ (App.cost_change ins == 0)%Q)
  /\ (forall regional years highest lowest daily annual,
      App.insights [] regional years highest lowest daily annual = ret None).
Proof.
  split; [| split].
  - intros y0 rest regional years highest lowest daily annual Hreg.
    destruct (insights_some y0 rest regional years highest lowest daily annual Hreg)
      as [ins [E [Hc _]]].
    exists ins. split; assumption.
  - intros y0 regional years highest lowest daily annual Hreg.
    destruct (insights_some y0 [] regional years highest lowest daily annual Hreg)
      as [ins [E [Hc _]]].
    exists ins. split; [exact E |].
    rewrite Hc. simpl. unfold Qminus. apply Qplus_opp_r.
  - reflexivity.
Qed.

(** On a view with a row the whole run succeeds and shows the insight block
    computed from the yearly series of that view. *)
Lemma render_nonempty_view (df : DataFrame) (sel : App.Selection) :
  App.filtered_df df sel <> [] ->
  exists d ins y0 rest,
    App.render df sel = ret d
    /\ App.dataframe d = App.filtered_df df sel
    /\ App.yearly_avg (App.filtered_df df sel) = y0 :: rest
    /\ App.auto_insights d = Some ins
    /\ App.cost_change ins = (snd (last (y0 :: rest) y0) - snd y0)%Q.
Proof.
  intros Hview. unfold App.render.
  set (view := App.filtered_df df sel) in *.
  destruct (idxmax_nonempty _ (country_avg_cost_nonempty view Hview)) as [hi Ehi].
  destruct (idxmin_nonempty _ (country_avg_cost_nonempty view Hview)) as [lo Elo].
  unfold App.highest_cost_country, App.lowest_cost_country.
  rewrite Ehi, Elo. cbn [bind ret].
  pose proof (groupby_mean_nonempty year cost_healthy_diet_ppp_usd view Hview) as Hy.
  pose proof (groupby_mean_nonempty region cost_healthy_diet_ppp_usd view Hview) as Hr.
  fold (App.yearly_avg view) in Hy. fold (App.region_avg view) in Hr.
  destruct (App.yearly_avg view) as [| y0 rest] eqn:Ey; [congruence |].
  destruct (insights_some y0 rest (App.region_avg view)
              (App.selected_years sel) hi lo
              (App.avg_daily_cost view) (App.avg_annual_cost view) Hr)
    as [ins [E [Hc _]]].
  rewrite E. cbn [bind ret].
  eexists. exists ins, y0, rest. split; [reflexivity |].
  cbn. repeat split; try reflexivity. exact Hc.
Qed.

(* ------------------------------------------------------------------ *)
(** ** The three-row scenario, evaluated *)

(** C8. On the three-row dataset with regions {Asia}, countries {India,
    Japan}, years 2020 to 2020 and categories {Low, High}: the filtered view
    is the first two rows, the mean daily cost is 5.25, the highest-cost
    country is Japan, the lowest-cost country is India and the Top-10 series
    is Japan (8.0), India (2.5); the run from the widgets shows these. *)
Theorem scenario_asia_2020_results :
  App.filtered_df Scenario.dataset Scenario.asia_2020
  = [Scenario.india; Scenario.japan]
  /\ (exists q, App.avg_daily_cost [Scenario.india; Scenario.japan] = Fin q
                /\ (q == 5.25)%Q)
  /\ App.highest_cost_country [Scenario.india; Scenario.japan] = ret "Japan"
  /\ App.lowest_cost_country [Scenario.india; Scenario.japan] = ret "India"
  /\ Spec.series_eq (App.top10 [Scenario.india; Scenario.japan])
                    [("Japan", 8.0%Q); ("India", 2.5%Q)]
  /\ exists d,
       App.script (App.chosen Scenario.asia_2020) Scenario.dataset = ret d
       /\ App.dataframe d = [Scenario.india; Scenario.japan]
       /\ App.metric_daily d = App.avg_daily_cost [Scenario.india; Scenario.japan]
       /\ App.metric_highest d = "Japan"
       /\ App.metric_lowest d = "India"
       /\ App.fig3 d = App.top10 [Scenario.india; Scenario.japan].
Proof.
  split; [reflexivity |].
  split; [eexists; split; [reflexivity | reflexivity] |].
  split; [reflexivity |].
  split; [reflexivity |].
  split.
  - repeat constructor; reflexivity.
  - eexists. split; [vm_compute; reflexivity |].
    repeat split; reflexivity.
Qed.

(* ------------------------------------------------------------------ *)
(** ** Category counts *)

Section CountFacts.
Context {K : Type} `{GroupKey K}.

Lemma filter_isin_cons (a : K) (u col : list K) :
  ~ In a u ->
  List.length (filter (Pandas.isin (a :: u)) col)
  = (List.length (filter (keqb a) col) + List.length (filter (Pandas.isin u) col))%nat.
Proof.
  intros Ha. induction col as [| y col IH]; simpl; [reflexivity |].
  rewrite (keqb_sym a y).
  destruct (keqb y a) eqn:E; simpl.
  - apply keqb_eq in E. subst y.
    destruct (Pandas.isin u a) eqn:Eu.
    + apply isin_In in Eu. contradiction.
    + simpl. rewrite IH. reflexivity.
  - destruct (Pandas.isin u y); simpl; rewrite IH; lia.
Qed.

Lemma sum_count_of (u col : list K) :
  NoDup u ->
  list_sum (map (fun k => Pandas.count_of k col) u)
  = List.length (filter (Pandas.isin u) col).
Proof.
  induction 1 as [| a u Ha ND IH]; simpl.
  - induction col as [| y col IHc]; simpl; [reflexivity | exact IHc].
  - rewrite IH. unfold Pandas.count_of.
    symmetry. apply filter_isin_cons, Ha.
Qed.

Lemma sum_count_of_unique (col : list K) :
  list_sum (map (fun k => Pandas.count_of k col) (Pandas.unique col))
  = List.length col.
Proof.
  rewrite sum_count_of by apply unique_NoDup.
  rewrite filter_all; [reflexivity |].
  intros x Hx. apply isin_unique, Hx.
Qed.

Lemma value_counts_Permutation (col : list K) :
  Permutation (map (fun k => (k, Pandas.count_of k col)) (Pandas.unique col))
              (Pandas.value_counts col).
Proof. apply sort_values_Permutation. Qed.

Lemma value_counts_keys (col : list K) :
  Permutation (Pandas.unique col) (map fst (Pandas.value_counts col)).
Proof.
  rewrite <- (value_counts_Permutation col), map_map. simpl.
  rewrite map_id. reflexivity.
Qed.
End CountFacts.

(** C9. The Category Distribution series has exactly one row for each
    cost category that occurs in the view, the count in a row is the number
    of rows of the view in that category, and the counts add up to the
    number of rows of the view. *)
Theorem cat_data_counts (view : DataFrame) :
  NoDup (map fst (App.cat_data view))
  /\ (forall c, In c (map fst (App.cat_data view)) <->
                In c (map cost_category view))
  /\ List.length (App.cat_data view)
     = List.length (Pandas.unique (map cost_category view))
  /\ (forall c n, In (c, n) (App.cat_data view) ->
        n = List.length (filter (fun r => keqb c (cost_category r)) view))
  /\ list_sum (map snd (App.cat_data view)) = List.length view.
Proof.
  unfold App.cat_data.
  pose proof (value_counts_keys (map cost_category view)) as PK.
  pose proof (value_counts_Permutation (map cost_category view)) as PV.
  split; [| split; [| split; [| split]]].
  - eapply Permutation_NoDup; [exact PK | apply unique_NoDup].
  - intros c. rewrite <- (unique_In (map cost_category view)). split; intros Hc.
    + eapply Permutation_in; [symmetry; exact PK | exact Hc].
    + eapply Permutation_in; [exact PK | exact Hc].
  - rewrite <- (length_map fst). symmetry. apply Permutation_length, PK.
  - intros c n Hc.
    apply (Permutation_in _ (Permutation_sym PV)) in Hc.
    apply in_map_iff in Hc. destruct Hc as [k [[= <- <-] _]].
    unfold Pandas.count_of. clear. induction view as [| r view IH]; simpl.
    + reflexivity.
    + destruct (keqb k (cost_category r)); simpl; rewrite IH; reflexivity.
  - rewrite <- PV, map_map. simpl.
    rewrite sum_count_of_unique. apply length_map.
Qed.

(* ------------------------------------------------------------------ *)
(** ** Top-10 and Bottom-10 *)

Lemma In_firstn {A : Type} (n : nat) (l : list A) (x : A) :
  In x (firstn n l) -> In x l.
Proof.
  intros Hx. rewrite <- (firstn_skipn n l). apply in_or_app. left. exact Hx.
Qed.

Lemma strict_sorted_unique {A : Type} (R : A -> A -> Prop) (l1 l2 : list A) :
  (forall a b, R a b -> R b a -> False) ->
  StronglySorted R l1 -> StronglySorted R l2 -> Permutation l1 l2 -> l1 = l2.
Proof.
  intros asym SS1. revert l2.
  induction SS1 as [| a l1 SS1 IH Ha]; intros l2 SS2 P.
  - apply Permutation_nil in P. congruence.
  - destruct SS2 as [| b l2 SS2 Hb].
    + apply Permutation_sym, Permutation_nil in P. discriminate.
    + rewrite Forall_forall in Ha, Hb.
      assert (E : a = b).
      { assert (Hain : In a (b :: l2))
          by (eapply Permutation_in; [exact P | left; reflexivity]).
        assert (Hbin : In b (a :: l1))
          by (eapply Permutation_in; [symmetry; exact P | left; reflexivity]).
        destruct Hain as [E | Hain]; [congruence |].
        destruct Hbin as [E | Hbin]; [congruence |].
        destruct (asym _ _ (Ha _ Hbin) (Hb _ Hain)). }
      subst b. f_equal. apply IH; [exact SS2 |].
      eapply Permutation_cons_inv. exact P.
Qed.

Section DistinctValues.
Context {K : Type}.

Lemma distinct_values_inj (s : list (K * Q)) :
  Spec.distinct_values s ->
  forall x y, In x s -> In y s -> (snd x == snd y)%Q -> x = y.
Proof.
  unfold Spec.distinct_values.
  induction s as [| a s IH]; simpl; intros D x y Hx Hy E; [contradiction |].
  apply andb_true_iff in D. destruct D as [Da Ds].
  rewrite forallb_forall in Da.
  destruct Hx as [<- | Hx]; destruct Hy as [<- | Hy].
  - reflexivity.
  - specialize (Da _ Hy). apply Qeq_bool_iff in E. rewrite E in Da. discriminate.
  - specialize (Da _ Hx). symmetry in E. apply Qeq_bool_iff in E.
    rewrite E in Da. discriminate.
  - exact (IH Ds x y Hx Hy E).
Qed.

Lemma sorted_strict (l : list (K * Q)) :
  NoDup l ->
  (forall x y, In x l -> In y l -> (snd x == snd y)%Q -> x = y) ->
  StronglySorted (fun a b => (snd a <= snd b)%Q) l ->
  StronglySorted (fun a b => (snd a < snd b)%Q) l.
Proof.
  intros ND inj SS. induction SS as [| a l SS IH Ha].
  - constructor.
  - apply NoDup_cons_iff in ND. destruct ND as [Hnotin ND].
    constructor.
    + apply IH; [exact ND |]. intros x y Hx Hy. apply inj; right; assumption.
    + rewrite Forall_forall in *. intros y Hy.
      destruct (Qle_lt_or_eq _ _ (Ha y Hy)) as [L | E]; [exact L |].
      exfalso. apply Hnotin.
      rewrite (inj a y (or_introl eq_refl) (or_intror Hy) E). exact Hy.
Qed.

(** With pairwise distinct values, sorting downwards is the reverse of
    sorting upwards. *)
Lemma sort_values_descending_rev (s : list (K * Q)) :
  NoDup s -> Spec.distinct_values s ->
  Pandas.sort_values Qle_bool false s = rev (Pandas.sort_values Qle_bool true s).
Proof.
  intros ND D. unfold Pandas.sort_values. f_equal.
  pose proof (distinct_values_inj s D) as inj.
  assert (strict : forall t, Permutation s t ->
            StronglySorted (fun a b => (snd a <= snd b)%Q) t ->
            StronglySorted (fun a b => (snd a < snd b)%Q) t).
  { intros t P SS. apply sorted_strict; [| | exact SS].
    - eapply Permutation_NoDup; eassumption.
    - intros x y Hx Hy. apply inj; eapply Permutation_in;
        try (symmetry; exact P); assumption. }
  apply (strict_sorted_unique (fun a b => (snd a < snd b)%Q)).
  - intros a b Lab Lba. exact (Qlt_irrefl _ (Qlt_trans _ _ _ Lab Lba)).
  - apply strict.
    + rewrite <- sort_asc_Permutation. apply Permutation_rev.
    + exact (sort_values_Qle K true (rev s)).
  - apply strict.
    + apply sort_asc_Permutation.
    + exact (sort_values_Qle K true s).
  - rewrite <- !sort_asc_Permutation. symmetry. apply Permutation_rev.
Qed.
End DistinctValues.

Lemma country_avg_cost_keys_NoDup (view : DataFrame) :
  NoDup (map fst (App.country_avg_cost view)).
Proof.
  unfold App.country_avg_cost. rewrite groupby_mean_keys. apply group_keys_NoDup.
Qed.

Lemma country_avg_cost_length (view : DataFrame) :
  List.length (App.country_avg_cost view) = Spec.distinct_countries view.
Proof. apply groupby_mean_length. Qed.

Lemma keys_functional {K V : Type} (s : list (K * V)) (k : K) (v1 v2 : V) :
  NoDup (map fst s) -> In (k, v1) s -> In (k, v2) s -> v1 = v2.
Proof.
  induction s as [| [k' v'] s IH]; simpl; intros ND H1 H2; [contradiction |].
  apply NoDup_cons_iff in ND. destruct ND as [Hk ND].
  destruct H1 as [[= -> ->] | H1]; destruct H2 as [[= E] | H2].
  - congruence.
  - exfalso. apply Hk. apply (in_map fst) in H2. exact H2.
  - exfalso. apply Hk. apply (in_map fst) in H1. simpl in H1. congruence.
  - exact (IH ND H1 H2).
Qed.

Lemma StronglySorted_firstn {A : Type} (R : A -> A -> Prop) (n : nat) (l : list A) :
  StronglySorted R l -> StronglySorted R (firstn n l).
Proof.
  intros SS. revert n. induction SS as [| a l SS IH Ha]; intros n.
  - rewrite firstn_nil. constructor.
  - destruct n as [| n]; simpl; constructor; [apply IH |].
    rewrite Forall_forall in *. intros x Hx. apply Ha. exact (In_firstn _ _ _ Hx).
Qed.

Lemma NoDup_firstn {A : Type} (n : nat) (l : list A) :
  NoDup l -> NoDup (firstn n l).
Proof.
  intros ND. rewrite <- (firstn_skipn n l) in ND.
  exact (NoDup_app_remove_r _ _ ND).
Qed.

(** In a sorted list that ends at position [i], every entry is the entry at
    [i] or stands before it in the order. *)
Lemma sorted_last_bound {A : Type} (R : A -> A -> Prop) (l : list A) (i : nat)
    (x e : A) :
  StronglySorted R l -> nth_error l i = Some x -> (List.length l <= S i)%nat ->
  In e l -> e = x \/ R e x.
Proof.
  intros SS. revert i. induction SS as [| a l SS IH Ha]; intros i Hx Hlen He.
  - destruct He.
  - destruct i as [| i]; simpl in Hx, Hlen.
    + injection Hx as <-. destruct l as [| y l]; [| simpl in Hlen; lia].
      destruct He as [<- | []]. left. reflexivity.
    + destruct He as [<- | He].
      * right. rewrite Forall_forall in Ha. apply Ha.
        exact (nth_error_In _ _ Hx).
      * apply (IH i); [exact Hx | lia | exact He].
Qed.

(** C3, as amended. Top-10 is the per-country mean series sorted downwards
    and cut to its first ten entries, Bottom-10 the same series sorted upwards
    and cut to ten; each has min(10, number of countries) entries, all of them
    entries of the per-country series; and when both have a tenth entry and
    the tenth Bottom-10 mean is strictly below the tenth Top-10 mean, no
    country is in both, and the view then has at least twenty countries. *)
Theorem top10_bottom10_series (view : DataFrame) :
  (exists sorted,
      Permutation (App.country_avg_cost view) sorted
      /\ StronglySorted (fun a b => (snd b <= snd a)%Q) sorted
      /\ App.top10 view = firstn 10 sorted)
  /\ (exists sorted,
      Permutation (App.country_avg_cost view) sorted
      /\ StronglySorted (fun a b => (snd a <= snd b)%Q) sorted
      /\ App.bottom10 view = firstn 10 sorted)
  /\ List.length (App.top10 view) = Nat.min 10 (Spec.distinct_countries view)
  /\ List.length (App.bottom10 view) = Nat.min 10 (Spec.distinct_countries view)
  /\ incl (App.top10 view) (App.country_avg_cost view)
  /\ incl (App.bottom10 view) (App.country_avg_cost view)
  /\ (forall b t,
        nth_error (App.bottom10 view) 9 = Some b ->
        nth_error (App.top10 view) 9 = Some t ->
        (snd b < snd t)%Q ->
        (forall c, In c (map fst (App.top10 view)) ->
                   ~ In c (map fst (App.bottom10 view)))
        /\ (20 <= Spec.distinct_countries view)%nat).
Proof.
  unfold App.top10, App.bottom10, Pandas.head.
  set (s := App.country_avg_cost view).
  pose proof (sort_values_Permutation Qle_bool false s) as Pd.
  pose proof (sort_values_Permutation Qle_bool true s) as Pa.
  pose proof (sort_values_Qle string false s) as Sd.
  pose proof (sort_values_Qle string true s) as Sa.
  set (D := Pandas.sort_values Qle_bool false s) in *.
  set (A := Pandas.sort_values Qle_bool true s) in *.
  assert (Itop : incl (firstn 10 D) s).
  { intros e He. apply In_firstn in He.
    eapply Permutation_in; [symmetry; exact Pd | exact He]. }
  assert (Ibot : incl (firstn 10 A) s).
  { intros e He. apply In_firstn in He.
    eapply Permutation_in; [symmetry; exact Pa | exact He]. }
  split; [| split; [| split; [| split; [| split; [| split]]]]].
  - exists D. split; [exact Pd |]. split; [exact Sd | reflexivity].
  - exists A. split; [exact Pa |]. split; [exact Sa | reflexivity].
  - rewrite length_firstn, <- (Permutation_length Pd).
    unfold s. rewrite country_avg_cost_length. reflexivity.
  - rewrite length_firstn, <- (Permutation_length Pa).
    unfold s. rewrite country_avg_cost_length. reflexivity.
  - exact Itop.
  - exact Ibot.
  - intros b t Hb Ht Hcut.
    pose proof (country_avg_cost_keys_NoDup view) as NDk. fold s in NDk.
    assert (Htop : forall e, In e (firstn 10 D) -> (snd t <= snd e)%Q).
    { intros e He.
      destruct (sorted_last_bound _ _ 9 t e
                  (StronglySorted_firstn _ 10 _ Sd) Ht (firstn_le_length 10 D) He)
        as [-> | L]; [apply Qle_refl | exact L]. }
    assert (Hbot : forall e, In e (firstn 10 A) -> (snd e <= snd b)%Q).
    { intros e He.
      destruct (sorted_last_bound _ _ 9 b e
                  (StronglySorted_firstn _ 10 _ Sa) Hb (firstn_le_length 10 A) He)
        as [-> | L]; [apply Qle_refl | exact L]. }
    assert (Hdisj : forall c, In c (map fst (firstn 10 D)) ->
                              ~ In c (map fst (firstn 10 A))).
    { intros c Hc Hc'.
      apply in_map_iff in Hc. destruct Hc as [[c1 m] [E1 Hin]].
      apply in_map_iff in Hc'. destruct Hc' as [[c2 m'] [E2 Hin']].
      simpl in E1, E2. subst c1 c2.
      assert (Em : m = m')
        by exact (keys_functional s c m m' NDk (Itop _ Hin) (Ibot _ Hin')).
      subst m'. specialize (Htop _ Hin). specialize (Hbot _ Hin').
      simpl in Htop, Hbot.
      exact (Qlt_irrefl _ (Qle_lt_trans _ _ _ (Qle_trans _ _ _ Htop Hbot) Hcut)). }
    split; [exact Hdisj |].
    assert (Ltop : List.length (map fst (firstn 10 D)) = 10%nat).
    { rewrite length_map. pose proof (firstn_le_length 10 D).
      assert (nth_error (firstn 10 D) 9 <> None) as Hs by congruence.
      apply nth_error_Some in Hs. lia. }
    assert (Lbot : List.length (map fst (firstn 10 A)) = 10%nat).
    { rewrite length_map. pose proof (firstn_le_length 10 A).
      assert (nth_error (firstn 10 A) 9 <> None) as Hs by congruence.
      apply nth_error_Some in Hs. lia. }
    assert (NDall : NoDup (map fst (firstn 10 D) ++ map fst (firstn 10 A))).
    { apply NoDup_app.
      - rewrite <- firstn_map. apply NoDup_firstn.
        eapply Permutation_NoDup; [apply Permutation_map; exact Pd | exact NDk].
      - rewrite <- firstn_map. apply NoDup_firstn.
        eapply Permutation_NoDup; [apply Permutation_map; exact Pa | exact NDk].
      - exact Hdisj. }
    assert (Iall : incl (map fst (firstn 10 D) ++ map fst (firstn 10 A)) (map fst s)).
    { intros c Hc. apply in_app_or in Hc.
      destruct Hc as [Hc | Hc]; apply in_map_iff in Hc;
        destruct Hc as [e [<- He]]; apply in_map; [apply Itop | apply Ibot]; exact He. }
    pose proof (NoDup_incl_length NDall Iall) as Hlen.
    rewrite length_app, Ltop, Lbot, length_map in Hlen.
    unfold s in Hlen. rewrite country_avg_cost_length in Hlen. exact Hlen.
Qed.

(** Twenty-one countries, the two cheapest tied: the tenth Bottom-10 mean
    (10) is below the tenth Top-10 mean (12). *)
Lemma top10_bottom10_series_witness :
  Spec.distinct_valuesb (App.country_avg_cost Scenario.twenty_one_countries) = false
  /\ In "U" (map fst (App.top10 Scenario.twenty_one_countries))
  /\ ~ In "U" (map fst (App.bottom10 Scenario.twenty_one_countries))
  /\ (20 <= Spec.distinct_countries Scenario.twenty_one_countries)%nat.
Proof.
  assert (Htop : In "U" (map fst (App.top10 Scenario.twenty_one_countries)))
    by (vm_compute; left; reflexivity).
  split; [vm_compute; reflexivity |]. split; [exact Htop |].
  destruct (top10_bottom10_series Scenario.twenty_one_countries)
    as [_ [_ [_ [_ [_ [_ Hcut]]]]]].
  destruct (Hcut ("J", 10%Q) ("L", 12%Q)) as [Hdisj Hlen].
  - vm_compute. reflexivity.
  - vm_compute. reflexivity.
  - unfold Qlt. simpl. lia.
  - split; [exact (Hdisj "U" Htop) | exact Hlen].
Defined.

(** C3 as stated fails with eleven countries: more than ten distinct
    countries, and country F is in both series. *)
Lemma top10_bottom10_overlap_eleven :
  (10 < Spec.distinct_countries Scenario.eleven_countries)%nat
  /\ In "F" (map fst (App.top10 Scenario.eleven_countries))
  /\ In "F" (map fst (App.bottom10 Scenario.eleven_countries))
  /\ ~ (forall c, In c (map fst (App.top10 Scenario.eleven_countries)) ->
                  ~ In c (map fst (App.bottom10 Scenario.eleven_countries))).
Proof.
  assert (Htop : In "F" (map fst (App.top10 Scenario.eleven_countries)))
    by (vm_compute; tauto).
  assert (Hbot : In "F" (map fst (App.bottom10 Scenario.eleven_countries)))
    by (vm_compute; tauto).
  split; [vm_compute; lia |]. split; [exact Htop |]. split; [exact Hbot |].
  intros Hdisj. exact (Hdisj "F" Htop Hbot).
Qed.

(* ------------------------------------------------------------------ *)
(** ** The sidebar on any widget state *)

Lemma ret_inj {A : Type} (a b : A) : ret a = ret b -> a = b.
Proof. intros E. injection E as E. exact E. Qed.

Lemma sidebar_filters_ret_spans (ui : App.Sidebar) (df : DataFrame)
    (sel : App.Selection) :
  App.sidebar_filters ui df = ret sel -> Spec.spans_years df.
Proof.
  destruct df as [| r0 df]; [discriminate |]. intros E.
  destruct (Z.lt_ge_cases (fold_left Z.min (map year df) (year r0))
                          (fold_left Z.max (map year df) (year r0))) as [Hlt | Hge].
  - apply spans_years_bounds, Hlt.
  - rewrite sidebar_filters_one_year in E; [discriminate E |].
    intros H. apply spans_years_bounds in H. lia.
Qed.

(** X1. Whatever the widgets return, the sidebar has three outcomes: on a
    frame without rows the year bounds raise (NaN to integer); on a frame
    whose rows all have one year the slider is refused; on a frame with rows
    of two different years, and only there, a selection is produced. *)
Theorem sidebar_filters_outcomes (ui : App.Sidebar) (df : DataFrame) :
  (df = [] <->
   App.sidebar_filters ui df
   = raise (ValueError "cannot convert float NaN to integer"))
  /\ (df <> [] /\ ~ Spec.spans_years df <->
      exists msg, App.sidebar_filters ui df = raise (StreamlitAPIException msg))
  /\ (Spec.spans_years df <-> exists sel, App.sidebar_filters ui df = ret sel).
Proof.
  destruct df as [| r0 df].
  - split; [| split].
    + split; reflexivity.
    + split; [intros [H _]; congruence | intros [msg E]; discriminate E].
    + split; [intros H; destruct (spans_years_nil H) | intros [sel E]; discriminate E].
  - destruct (Z.lt_ge_cases (fold_left Z.min (map year df) (year r0))
                            (fold_left Z.max (map year df) (year r0))) as [Hlt | Hge].
    + pose proof (proj2 (spans_years_bounds r0 df) Hlt) as Hspan.
      rewrite (sidebar_filters_span ui r0 df Hlt).
      split; [| split].
      * split; discriminate.
      * split; [intros [_ H]; contradiction | intros [msg E]; discriminate E].
      * split; [intros _; eexists; reflexivity | intros _; exact Hspan].
    + assert (Hno : ~ Spec.spans_years (r0 :: df)).
      { intros H. apply spans_years_bounds in H. lia. }
      rewrite (sidebar_filters_one_year ui r0 df Hno).
      split; [| split].
      * split; discriminate.
      * split; [intros _; eexists; reflexivity | intros _; split; [discriminate | exact Hno]].
      * split; [intros H; contradiction | intros [sel E]; discriminate E].
Qed.

(** X2. Whenever the untouched sidebar produces a selection, its year range,
    which is both the bounds and the default value of the slider, runs from
    a year of the frame to a strictly later year of the frame, and every
    row's year lies in it. *)
Theorem default_year_range_attained (df : DataFrame) (sel : App.Selection) :
  App.sidebar_filters App.untouched df = ret sel ->
  In (fst (App.selected_years sel)) (map year df)
  /\ In (snd (App.selected_years sel)) (map year df)
  /\ fst (App.selected_years sel) < snd (App.selected_years sel)
  /\ forall r, In r df ->
       fst (App.selected_years sel) <= year r <= snd (App.selected_years sel).
Proof.
  intros E.
  pose proof (sidebar_filters_ret_spans _ _ _ E) as Hspan.
  destruct df as [| r0 df]; [destruct (spans_years_nil Hspan) |].
  rewrite (sidebar_filters_untouched r0 df Hspan) in E.
  injection E as <-.
  cbn [App.selected_years fst snd].
  pose proof (fold_left_min_le (map year df) (year r0)) as Hmin.
  pose proof (fold_left_max_ge (map year df) (year r0)) as Hmax.
  split; [apply (fold_left_min_In (map year df) (year r0)) |].
  split; [apply (fold_left_max_In (map year df) (year r0)) |].
  split; [apply spans_years_bounds, Hspan |].
  intros r Hr. apply (in_map year) in Hr. split; [apply Hmin | apply Hmax]; exact Hr.
Qed.

Lemma default_year_range_attained_witness :
  exists sel,
    App.sidebar_filters App.untouched Scenario.dataset = ret sel
    /\ In (fst (App.selected_years sel)) (map year Scenario.dataset)
    /\ In (snd (App.selected_years sel)) (map year Scenario.dataset)
    /\ fst (App.selected_years sel) < snd (App.selected_years sel)
    /\ forall r, In r Scenario.dataset ->
         fst (App.selected_years sel) <= year r <= snd (App.selected_years sel).
Proof.
  eexists. split; [reflexivity |].
  apply (default_year_range_attained Scenario.dataset). reflexivity.
Defined.

(** X3. When only the region widget is changed and the sidebar produces a
    selection, the country widget offers and by default selects the countries
    of the rows in the chosen regions, and the filtered view is exactly
    those rows. *)
Theorem only_regions_view (regions : list string) (df : DataFrame)
    (sel : App.Selection) :
  App.sidebar_filters (Widgets.only_regions regions) df = ret sel ->
  App.selected_regions sel = regions
  /\ App.selected_countries sel
     = Pandas.unique
         (map country (filter (fun r => Pandas.isin regions (region r)) df))
  /\ App.filtered_df df sel
     = filter (fun r => Pandas.isin regions (region r)) df.
Proof.
  intros E. pose proof (sidebar_filters_ret_spans _ _ _ E) as Hspan.
  destruct df as [| r0 df]; [destruct (spans_years_nil Hspan) |].
  apply spans_years_bounds in Hspan.
  rewrite (sidebar_filters_span _ r0 df Hspan) in E.
  apply ret_inj in E. subst sel.
  cbn [App.selected_regions App.selected_countries Widgets.only_regions
       App.multiselect String.eqb Ascii.eqb Bool.eqb].
  split; [reflexivity |]. split; [reflexivity |].
  unfold App.filtered_df. apply filter_ext_in. intros r Hr.
  unfold App.mask.
  cbn [App.selected_regions App.selected_countries App.selected_years
       App.selected_category Widgets.only_regions App.multiselect App.slider
       String.eqb Ascii.eqb Bool.eqb fst snd].
  destruct (Pandas.isin regions (region r)) eqn:Ereg; [| reflexivity].
  cbn [andb].
  replace (Pandas.isin _ (country r)) with true.
  - replace (Pandas.between _ _ (year r)) with true.
    + cbn [andb]. apply isin_unique, in_map, Hr.
    + symmetry. apply between_iff. apply (in_map year) in Hr. split.
      * apply fold_left_min_le, Hr.
      * apply fold_left_max_ge, Hr.
  - symmetry. apply isin_unique. apply in_map. apply filter_In.
    split; [exact Hr | exact Ereg].
Qed.

Lemma only_regions_view_witness :
  exists sel,
    App.sidebar_filters (Widgets.only_regions ["Europe"]) Scenario.dataset = ret sel
    /\ App.selected_regions sel = ["Europe"]
    /\ App.selected_countries sel
       = Pandas.unique
           (map country
              (filter (fun r => Pandas.isin ["Europe"] (region r)) Scenario.dataset))
    /\ App.filtered_df Scenario.dataset sel
       = filter (fun r => Pandas.isin ["Europe"] (region r)) Scenario.dataset.
Proof.
  eexists. split; [reflexivity |].
  apply (only_regions_view ["Europe"] Scenario.dataset). reflexivity.
Defined.

(* ------------------------------------------------------------------ *)
(** ** The filter on degenerate and on nested selections *)

Lemma filter_none {A : Type} (f : A -> bool) (l : list A) :
  (forall x, In x l -> f x = false) -> filter f l = [].
Proof.
  induction l as [| a l IH]; intros Hall; simpl; [reflexivity |].
  rewrite (Hall a (or_introl eq_refl)).
  apply IH. intros x Hx. apply Hall. right. exact Hx.
Qed.

(** X4. A selection that is empty in one of its three lists, or whose year range
    is inverted, leaves no row. *)
Theorem empty_dimension_empty_view (df : DataFrame) (sel : App.Selection) :
  App.selected_regions sel = []
  \/ App.selected_countries sel = []
  \/ App.selected_category sel = []
  \/ snd (App.selected_years sel) < fst (App.selected_years sel) ->
  App.filtered_df df sel = [].
Proof.
  intros Hdeg. unfold App.filtered_df. apply filter_none. intros r _.
  destruct (App.mask sel r) eqn:E; [| reflexivity].
  apply mask_satisfies in E. destruct E as [Hr [Hc [Hy Hk]]].
  destruct Hdeg as [E | [E | [E | L]]].
  - rewrite E in Hr. destruct Hr.
  - rewrite E in Hc. destruct Hc.
  - rewrite E in Hk. destruct Hk.
  - lia.
Qed.

Lemma empty_dimension_empty_view_witness :
  App.filtered_df Scenario.dataset Scenario.no_region = [].
Proof.
  apply (empty_dimension_empty_view Scenario.dataset Scenario.no_region).
  left. reflexivity.
Defined.

(** X5. Widening a selection never removes a row: the view of the narrower
    selection is the view of the wider one filtered again. *)
Theorem narrower_selection_subview (df : DataFrame) (sel sel' : App.Selection) :
  Widgets.narrower sel sel' ->
  App.filtered_df df sel = App.filtered_df (App.filtered_df df sel') sel
  /\ forall r, In r (App.filtered_df df sel) -> In r (App.filtered_df df sel').
Proof.
  intros [Hr [Hc [Hlo [Hhi Hk]]]].
  assert (Himp : forall r, App.mask sel r = true -> App.mask sel' r = true).
  { intros r E. apply mask_satisfies in E. apply mask_satisfies.
    destruct E as [Er [Ec [Ey Ek]]]. unfold Spec.satisfies.
    repeat split; try lia; auto. }
  unfold App.filtered_df. split.
  - induction df as [| r df IH]; simpl; [reflexivity |].
    destruct (App.mask sel r) eqn:E.
    + rewrite (Himp r E). simpl. rewrite E. f_equal. exact IH.
    + destruct (App.mask sel' r); simpl; [rewrite E |]; exact IH.
  - intros r Hin. apply filter_In in Hin. apply filter_In.
    destruct Hin as [Hin E]. split; [exact Hin | apply Himp, E].
Qed.

Lemma narrower_selection_subview_witness :
  App.filtered_df Scenario.dataset Scenario.asia_2020
  = App.filtered_df (App.filtered_df Scenario.dataset Widgets.whole_scenario)
                    Scenario.asia_2020
  /\ forall r, In r (App.filtered_df Scenario.dataset Scenario.asia_2020) ->
               In r (App.filtered_df Scenario.dataset Widgets.whole_scenario).
Proof.
  apply (narrower_selection_subview Scenario.dataset
           Scenario.asia_2020 Widgets.whole_scenario).
  unfold Widgets.narrower. simpl.
  repeat split; try lia; intros x Hx; simpl in *; tauto.
Defined.

(* ------------------------------------------------------------------ *)
(** ** What the charts and metrics show comes from the selection *)

Lemma view_row_satisfies (df : DataFrame) (sel : App.Selection) (r : Row) :
  In r (App.filtered_df df sel) -> Spec.satisfies sel r.
Proof.
  unfold App.filtered_df. intros Hin. apply filter_In in Hin.
  apply mask_satisfies. exact (proj2 Hin).
Qed.

Lemma top10_incl (view : DataFrame) :
  incl (App.top10 view) (App.country_avg_cost view).
Proof.
  intros e He. unfold App.top10, Pandas.head in He. apply In_firstn in He.
  eapply Permutation_in; [symmetry; apply sort_values_Permutation | exact He].
Qed.

Lemma bottom10_incl (view : DataFrame) :
  incl (App.bottom10 view) (App.country_avg_cost view).
Proof.
  intros e He. unfold App.bottom10, Pandas.head in He. apply In_firstn in He.
  eapply Permutation_in; [symmetry; apply sort_values_Permutation | exact He].
Qed.

Lemma idxmax_In {K : Type} (s : list (K * Q)) (c : K) :
  Pandas.idxmax s = ret c -> In c (map fst s).
Proof.
  intros E. apply idxmax_first_max in E.
  destruct E as [before [m [after [-> _]]]].
  rewrite map_app. apply in_or_app. right. left. reflexivity.
Qed.

Lemma idxmin_In {K : Type} (s : list (K * Q)) (c : K) :
  Pandas.idxmin s = ret c -> In c (map fst s).
Proof.
  intros E. apply idxmin_first_min in E.
  destruct E as [before [m [after [-> _]]]].
  rewrite map_app. apply in_or_app. right. left. reflexivity.
Qed.

Lemma country_avg_cost_country (view : DataFrame) (c : string) :
  In c (map fst (App.country_avg_cost view)) -> In c (map country view).
Proof.
  unfold App.country_avg_cost. rewrite groupby_mean_keys.
  apply group_keys_In.
Qed.

(** X6. Every year of the yearly trend lies in the selected year range, every
    region of the region chart is a selected region, every country of the
    Top-10 and Bottom-10 charts and both extreme countries are selected
    countries, and every category of the category chart is a selected
    category. *)
Theorem shown_keys_are_selected (df : DataFrame) (sel : App.Selection) :
  (forall y m, In (y, m) (App.yearly_avg (App.filtered_df df sel)) ->
     fst (App.selected_years sel) <= y <= snd (App.selected_years sel))
  /\ (forall r m, In (r, m) (App.region_avg (App.filtered_df df sel)) ->
     In r (App.selected_regions sel))
  /\ (forall c m, In (c, m) (App.top10 (App.filtered_df df sel)) ->
     In c (App.selected_countries sel))
  /\ (forall c m, In (c, m) (App.bottom10 (App.filtered_df df sel)) ->
     In c (App.selected_countries sel))
  /\ (forall c n, In (c, n) (App.cat_data (App.filtered_df df sel)) ->
     In c (App.selected_category sel))
  /\ (forall c, App.highest_cost_country (App.filtered_df df sel) = ret c ->
     In c (App.selected_countries sel))
  /\ (forall c, App.lowest_cost_country (App.filtered_df df sel) = ret c ->
     In c (App.selected_countries sel)).
Proof.
  set (view := App.filtered_df df sel).
  assert (Hcountry : forall c, In c (map country view) ->
                               In c (App.selected_countries sel)).
  { intros c Hc. apply in_map_iff in Hc. destruct Hc as [r [<- Hr]].
    apply view_row_satisfies in Hr. apply Hr. }
  split; [| split; [| split; [| split; [| split; [| split]]]]].
  - intros y m Hin. apply groupby_mean_entry in Hin. destruct Hin as [Hy _].
    apply in_map_iff in Hy. destruct Hy as [r [<- Hr]].
    apply view_row_satisfies in Hr. apply Hr.
  - intros r m Hin. apply groupby_mean_entry in Hin. destruct Hin as [Hr _].
    apply in_map_iff in Hr. destruct Hr as [r' [<- Hr]].
    apply view_row_satisfies in Hr. apply Hr.
  - intros c m Hin. apply top10_incl in Hin.
    apply Hcountry, country_avg_cost_country.
    apply (in_map fst) in Hin. exact Hin.
  - intros c m Hin. apply bottom10_incl in Hin.
    apply Hcountry, country_avg_cost_country.
    apply (in_map fst) in Hin. exact Hin.
  - intros c n Hin. apply (in_map fst) in Hin. simpl in Hin.
    unfold App.cat_data in Hin.
    apply (Permutation_in _ (Permutation_sym (value_counts_keys _))) in Hin.
    apply (proj1 (unique_In _ _)) in Hin.
    apply in_map_iff in Hin. destruct Hin as [r [<- Hr]].
    apply view_row_satisfies in Hr. apply Hr.
  - intros c E. apply Hcountry, country_avg_cost_country, idxmax_In, E.
  - intros c E. apply Hcountry, country_avg_cost_country, idxmin_In, E.
Qed.

(* ------------------------------------------------------------------ *)
(** ** The outcomes of a run *)

(** X7. The insight block never raises: the guard keeps both [iloc] calls in
    bounds.  It writes the sentences exactly when both series have an
    entry. *)
Theorem insights_never_raises (yearly : list (Z * Q)) (regional : list (string * Q))
    (years : Z * Z) (highest lowest : string) (daily annual : float64) :
  exists written,
    App.insights yearly regional years highest lowest daily annual = ret written
    /\ (written = None <-> yearly = [] \/ regional = []).
Proof.
  destruct yearly as [| y0 rest].
  - exists None. split; [reflexivity |]. split; auto.
  - destruct regional as [| r0 regional].
    + exists None. split; [reflexivity |]. split; auto.
    + destruct (insights_some y0 rest (r0 :: regional) years highest lowest
                  daily annual) as [ins [E _]]; [discriminate |].
      exists (Some ins). split; [exact E |].
      split; [discriminate | intros [H | H]; discriminate H].
Qed.

(** X8. A run of the script has one of four outcomes: on a frame without
    rows the year bounds raise; on a frame whose rows all have one year the
    slider is refused; on a frame with two different years and a selection
    that leaves no row [idxmax] raises; otherwise the dashboard is produced,
    with the insight sentences.  No [IndexError] is ever raised. *)
Theorem script_outcomes (ui : App.Sidebar) (df : DataFrame) :
  (df = [] /\
   App.script ui df = raise (ValueError "cannot convert float NaN to integer"))
  \/ (df <> [] /\ ~ Spec.spans_years df /\
      exists msg, App.script ui df = raise (StreamlitAPIException msg))
  \/ (exists sel,
        App.sidebar_filters ui df = ret sel
        /\ App.filtered_df df sel = []
        /\ App.script ui df
           = raise (ValueError "attempt to get argmax of an empty sequence"))
  \/ (exists sel d ins,
        App.sidebar_filters ui df = ret sel
        /\ App.filtered_df df sel <> []
        /\ App.script ui df = ret d
        /\ App.auto_insights d = Some ins).
Proof.
  destruct df as [| r0 df].
  - left. split; reflexivity.
  - right. unfold App.script.
    destruct (Z.lt_ge_cases (fold_left Z.min (map year df) (year r0))
                            (fold_left Z.max (map year df) (year r0))) as [Hlt | Hge].
    + right. rewrite (sidebar_filters_span ui r0 df Hlt).
      match goal with |- context [ret ?s] => set (sel := s) end.
      cbn [bind ret].
      destruct (App.filtered_df (r0 :: df) sel) as [| r view] eqn:Ev.
      * left. exists sel. split; [reflexivity |]. split; [exact Ev |].
        unfold App.render. rewrite Ev. reflexivity.
      * right.
        assert (Hne : App.filtered_df (r0 :: df) sel <> [])
          by (rewrite Ev; discriminate).
        destruct (render_nonempty_view (r0 :: df) sel Hne)
          as [d [ins [y0 [rest [Er [_ [_ [Hi _]]]]]]]].
        exists sel, d, ins. split; [reflexivity |]. split; [exact Hne |].
        split; [exact Er | exact Hi].
    + left.
      assert (Hno : ~ Spec.spans_years (r0 :: df)).
      { intros H. apply spans_years_bounds in H. lia. }
      rewrite (sidebar_filters_one_year ui r0 df Hno).
      split; [discriminate |]. split; [exact Hno |].
      eexists. reflexivity.
Qed.

(* ------------------------------------------------------------------ *)
(** ** The head of a sorted series *)

Lemma idxmax_max {K : Type} (s : list (K * Q)) (c : K) :
  Pandas.idxmax s = ret c ->
  exists m, In (c, m) s /\ forall e, In e s -> (snd e <= m)%Q.
Proof.
  intros E. apply idxmax_first_max in E.
  destruct E as [before [m [after [-> [Hbef Haft]]]]].
  exists m. split; [apply in_elt |].
  rewrite Forall_forall in Hbef, Haft.
  intros e He. apply in_app_or in He. destruct He as [He | [<- | He]].
  - apply Qlt_le_weak, Hbef, He.
  - apply Qle_refl.
  - apply Haft, He.
Qed.

Lemma idxmin_min {K : Type} (s : list (K * Q)) (c : K) :
  Pandas.idxmin s = ret c ->
  exists m, In (c, m) s /\ forall e, In e s -> (m <= snd e)%Q.
Proof.
  intros E. apply idxmin_first_min in E.
  destruct E as [before [m [after [-> [Hbef Haft]]]]].
  exists m. split; [apply in_elt |].
  rewrite Forall_forall in Hbef, Haft.
  intros e He. apply in_app_or in He. destruct He as [He | [<- | He]].
  - apply Qlt_le_weak, Hbef, He.
  - apply Qle_refl.
  - apply Haft, He.
Qed.

Lemma sort_values_descending_head {K : Type} (s : list (K * Q)) (e : K * Q)
    (rest : list (K * Q)) :
  Pandas.sort_values Qle_bool false s = e :: rest ->
  In e s /\ forall x, In x s -> (snd x <= snd e)%Q.
Proof.
  intros E.
  pose proof (sort_values_Permutation Qle_bool false s) as P.
  pose proof (sort_values_Qle K false s) as SS.
  rewrite E in P, SS. split.
  - eapply Permutation_in; [symmetry; exact P | left; reflexivity].
  - intros x Hx. apply (Permutation_in _ P) in Hx.
    inversion SS as [| ? ? _ Hall]; subst. rewrite Forall_forall in Hall.
    destruct Hx as [<- | Hx]; [apply Qle_refl | apply Hall, Hx].
Qed.

Lemma sort_values_ascending_head {K : Type} (s : list (K * Q)) (e : K * Q)
    (rest : list (K * Q)) :
  Pandas.sort_values Qle_bool true s = e :: rest ->
  In e s /\ forall x, In x s -> (snd e <= snd x)%Q.
Proof.
  intros E.
  pose proof (sort_values_Permutation Qle_bool true s) as P.
  pose proof (sort_values_Qle K true s) as SS.
  rewrite E in P, SS. split.
  - eapply Permutation_in; [symmetry; exact P | left; reflexivity].
  - intros x Hx. apply (Permutation_in _ P) in Hx.
    inversion SS as [| ? ? _ Hall]; subst. rewrite Forall_forall in Hall.
    destruct Hx as [<- | Hx]; [apply Qle_refl | apply Hall, Hx].
Qed.

(** X12. On a view with a row, the first bar of the Top-10 chart has the mean of
    the highest-cost country of the metrics, and the first bar of the
    Bottom-10 chart the mean of the lowest-cost country; when the country
    means are pairwise distinct the countries agree as well. *)
Theorem charts_lead_with_extreme_countries (view : DataFrame) :
  view <> [] ->
  (exists c m rest hi mhi,
      App.top10 view = (c, m) :: rest
      /\ App.highest_cost_country view = ret hi
      /\ In (hi, mhi) (App.country_avg_cost view)
      /\ (m == mhi)%Q
      /\ (Spec.distinct_values (App.country_avg_cost view) -> c = hi))
  /\ (exists c m rest lo mlo,
      App.bottom10 view = (c, m) :: rest
      /\ App.lowest_cost_country view = ret lo
      /\ In (lo, mlo) (App.country_avg_cost view)
      /\ (m == mlo)%Q
      /\ (Spec.distinct_values (App.country_avg_cost view) -> c = lo)).
Proof.
  intros Hne.
  pose proof (country_avg_cost_nonempty view Hne) as Hs.
  destruct (idxmax_nonempty _ Hs) as [hi Ehi].
  destruct (idxmin_nonempty _ Hs) as [lo Elo].
  destruct (idxmax_max _ _ Ehi) as [mhi [Hhi Hmax]].
  destruct (idxmin_min _ _ Elo) as [mlo [Hlo Hmin]].
  split.
  - destruct (sort_values_nonempty false _ Hs) as [[c m] [rest Es]].
    destruct (sort_values_descending_head _ _ _ Es) as [Hin Htop].
    assert (Em : (m == mhi)%Q).
    { apply Qle_antisym; [exact (Hmax _ Hin) | exact (Htop _ Hhi)]. }
    exists c, m, (firstn 9 rest), hi, mhi.
    split; [unfold App.top10, Pandas.head; rewrite Es; reflexivity |].
    split; [exact Ehi |]. split; [exact Hhi |]. split; [exact Em |].
    intros D. pose proof (distinct_values_inj _ D _ _ Hin Hhi Em) as Eq.
    congruence.
  - destruct (sort_values_nonempty true _ Hs) as [[c m] [rest Es]].
    destruct (sort_values_ascending_head _ _ _ Es) as [Hin Hbot].
    assert (Em : (m == mlo)%Q).
    { apply Qle_antisym; [exact (Hbot _ Hlo) | exact (Hmin _ Hin)]. }
    exists c, m, (firstn 9 rest), lo, mlo.
    split; [unfold App.bottom10, Pandas.head; rewrite Es; reflexivity |].
    split; [exact Elo |]. split; [exact Hlo |]. split; [exact Em |].
    intros D. pose proof (distinct_values_inj _ D _ _ Hin Hlo Em) as Eq.
    congruence.
Qed.

Lemma charts_lead_with_extreme_countries_witness :
  exists c m rest hi mhi,
    App.top10 Scenario.dataset = (c, m) :: rest
    /\ App.highest_cost_country Scenario.dataset = ret hi
    /\ In (hi, mhi) (App.country_avg_cost Scenario.dataset)
    /\ (m == mhi)%Q
    /\ (Spec.distinct_values (App.country_avg_cost Scenario.dataset) -> c = hi).
Proof.
  apply (charts_lead_with_extreme_countries Scenario.dataset). discriminate.
Defined.

(** X13. When the insight block writes its sentences, the region it names is an
    entry of the region series with the largest mean. *)
Theorem insights_highest_region_is_max (yearly : list (Z * Q))
    (regional : list (string * Q)) (years : Z * Z) (highest lowest : string)
    (daily annual : float64) (ins : App.Insights) :
  App.insights yearly regional years highest lowest daily annual = ret (Some ins) ->
  exists m, In (App.highest_region ins, m) regional
            /\ forall e, In e regional -> (snd e <= m)%Q.
Proof.
  intros E. unfold App.insights in E.
  destruct yearly as [| y0 rest]; [discriminate |].
  destruct regional as [| r0 regional]; [discriminate |].
  cbn [App.empty negb andb] in E.
  rewrite iloc_last_cons, iloc_first in E. cbn [bind ret] in E.
  destruct (sort_values_nonempty false (r0 :: regional)) as [[r m] [tl Es]];
    [discriminate |].
  rewrite Es, iloc_first in E. cbn [bind ret] in E.
  injection E as <-. cbn [App.highest_region fst].
  destruct (sort_values_descending_head _ _ _ Es) as [Hin Htop].
  exists m. split; [exact Hin | exact Htop].
Qed.

Lemma insights_highest_region_is_max_witness :
  exists ins m,
    App.insights [(2020, 1%Q); (2021, 3%Q)] [("Asia", 1%Q); ("Europe", 2%Q)]
                 (2020, 2021) "Japan" "India" NaN NaN = ret (Some ins)
    /\ In (App.highest_region ins, m) [("Asia", 1%Q); ("Europe", 2%Q)]
    /\ forall e, In e [("Asia", 1%Q); ("Europe", 2%Q)] -> (snd e <= m)%Q.
Proof.
  eexists.
  assert (E : App.insights [(2020, 1%Q); (2021, 3%Q)] [("Asia", 1%Q); ("Europe", 2%Q)]
                (2020, 2021) "Japan" "India" NaN NaN = ret (Some _))
    by reflexivity.
  destruct (insights_highest_region_is_max _ _ _ _ _ _ _ _ E) as [m [Hin Hmax]].
  exists m. split; [exact E |]. split; [exact Hin | exact Hmax].
Defined.

(* ------------------------------------------------------------------ *)
(** ** Order of the category chart, and charts of few countries *)

(** X14. The rows of the category chart come with counts in descending order. *)
Theorem cat_data_descending (view : DataFrame) :
  StronglySorted (fun a b => (snd b <= snd a)%nat) (App.cat_data view).
Proof.
  unfold App.cat_data, Pandas.value_counts.
  eapply StronglySorted_weaken;
    [| apply (sort_values_sorted Nat.leb) with (ascending := false)].
  - intros a b. unfold Spec.entry_le. apply Nat.leb_le.
  - intros a b. rewrite !Nat.leb_le. lia.
  - intros a b c. rewrite !Nat.leb_le. lia.
Qed.

(** X15. With at most ten distinct countries both country charts show every
    country of the view, each once; with pairwise distinct means the Top-10
    chart is the Bottom-10 chart read backwards. *)
Theorem few_countries_all_shown (view : DataFrame) :
  (Spec.distinct_countries view <= 10)%nat ->
  Permutation (App.top10 view) (App.country_avg_cost view)
  /\ Permutation (App.bottom10 view) (App.country_avg_cost view)
  /\ (forall c, In c (map fst (App.top10 view)) <-> In c (map country view))
  /\ (forall c, In c (map fst (App.bottom10 view)) <-> In c (map country view))
  /\ (Spec.distinct_values (App.country_avg_cost view) ->
      App.top10 view = rev (App.bottom10 view)).
Proof.
  intros Hfew. rewrite <- country_avg_cost_length in Hfew.
  pose proof (sort_values_Permutation Qle_bool false (App.country_avg_cost view)) as Pd.
  pose proof (sort_values_Permutation Qle_bool true (App.country_avg_cost view)) as Pa.
  assert (Etop : App.top10 view
                 = Pandas.sort_values Qle_bool false (App.country_avg_cost view)).
  { unfold App.top10, Pandas.head. apply firstn_all2.
    rewrite <- (Permutation_length Pd). exact Hfew. }
  assert (Ebot : App.bottom10 view
                 = Pandas.sort_values Qle_bool true (App.country_avg_cost view)).
  { unfold App.bottom10, Pandas.head. apply firstn_all2.
    rewrite <- (Permutation_length Pa). exact Hfew. }
  assert (Hkeys : forall c, In c (map fst (App.country_avg_cost view))
                            <-> In c (map country view)).
  { intros c. unfold App.country_avg_cost. rewrite groupby_mean_keys.
    apply group_keys_In. }
  rewrite Etop, Ebot.
  split; [symmetry; exact Pd |]. split; [symmetry; exact Pa |].
  split; [| split].
  - intros c. rewrite <- Hkeys. split; apply Permutation_in, Permutation_map;
      [symmetry |]; exact Pd.
  - intros c. rewrite <- Hkeys. split; apply Permutation_in, Permutation_map;
      [symmetry |]; exact Pa.
  - intros D. apply sort_values_descending_rev; [| exact D].
    apply (NoDup_map_inv fst), country_avg_cost_keys_NoDup.
Qed.

Lemma few_countries_all_shown_witness :
  Permutation (App.top10 Scenario.dataset) (App.country_avg_cost Scenario.dataset)
  /\ Permutation (App.bottom10 Scenario.dataset)
                 (App.country_avg_cost Scenario.dataset)
  /\ (forall c, In c (map fst (App.top10 Scenario.dataset))
                <-> In c (map country Scenario.dataset))
  /\ (forall c, In c (map fst (App.bottom10 Scenario.dataset))
                <-> In c (map country Scenario.dataset))
  /\ (Spec.distinct_values (App.country_avg_cost Scenario.dataset) ->
      App.top10 Scenario.dataset = rev (App.bottom10 Scenario.dataset)).
Proof.
  apply (few_countries_all_shown Scenario.dataset). vm_compute. lia.
Defined.

(* ------------------------------------------------------------------ *)
(** ** The yearly trend and the cost change *)

Lemma sorted_first_last {A : Type} (R : A -> A -> Prop) (x : A) (l : list A) :
  StronglySorted R (x :: l) ->
  forall y, In y (x :: l) ->
    (y = x \/ R x y) /\ (y = last (x :: l) x \/ R y (last (x :: l) x)).
Proof.
  intros SS y Hy. split.
  - inversion SS as [| ? ? _ Hall]; subst. rewrite Forall_forall in Hall.
    destruct Hy as [<- | Hy]; [left; reflexivity | right; apply Hall, Hy].
  - destruct (exists_last (l := x :: l)) as [l' [z E]]; [discriminate |].
    rewrite E in *. rewrite last_last.
    replace (l' ++ [z])%list with (l' ++ z :: [])%list in SS by reflexivity.
    destruct (StronglySorted_middle _ _ _ _ SS) as [Hbefore _].
    rewrite Forall_forall in Hbefore.
    apply in_app_or in Hy. destruct Hy as [Hy | [<- | []]].
    + right. apply Hbefore, Hy.
    + left. reflexivity.
Qed.



Lemma ascending_in_range_length (l : list Z) (lo hi : Z) :
  StronglySorted Z.lt l -> Forall (fun y => lo <= y <= hi) l ->
  Z.of_nat (List.length l) <= Z.max 0 (hi - lo + 1).
Proof.
  intros SS. revert lo. induction SS as [| a l SS IH Ha]; intros lo Hall.
  - simpl. lia.
  - inversion Hall as [| ? ? Hin Hall']; subst.
    assert (Htail : Forall (fun y => a + 1 <= y <= hi) l).
    { rewrite Forall_forall in *. intros y Hy.
      specialize (Ha y Hy). specialize (Hall' y Hy). lia. }
    specialize (IH (a + 1) Htail). simpl List.length. lia.
Qed.

(** X17. The yearly trend has at most one point per year of the selected range:
    no more than [hi - lo + 1] points, and none when the range is inverted. *)
Theorem yearly_avg_points_bound (df : DataFrame) (sel : App.Selection) :
  Z.of_nat (List.length (App.yearly_avg (App.filtered_df df sel)))
  <= Z.max 0 (snd (App.selected_years sel) - fst (App.selected_years sel) + 1).
Proof.
  rewrite <- (length_map fst). unfold App.yearly_avg. rewrite groupby_mean_keys.
  apply ascending_in_range_length.
  - exact (group_keys_sorted (map year (App.filtered_df df sel))).
  - apply Forall_forall. intros y Hy.
    apply (proj1 (group_keys_In _ _)) in Hy.
    apply in_map_iff in Hy. destruct Hy as [r [<- Hr]].
    apply view_row_satisfies in Hr. apply Hr.
Qed.

(* ------------------------------------------------------------------ *)
(** ** The first load, and views whose countries tie *)

Lemma render_shows_view (df : DataFrame) (sel : App.Selection) (d : App.Dashboard) :
  App.render df sel = ret d ->
  App.dataframe d = App.filtered_df df sel
  /\ App.fig6 d = App.filtered_df df sel.
Proof.
  unfold App.render. intros Er.
  destruct (App.highest_cost_country (App.filtered_df df sel)); [discriminate |].
  destruct (App.lowest_cost_country (App.filtered_df df sel)); [discriminate |].
  cbn [bind] in Er.
  destruct (App.insights _ _ _ _ _ _ _); [discriminate |].
  cbn [bind ret] in Er. injection Er as <-. cbn. split; reflexivity.
Qed.

Lemma untouched_view_is_dataset (r0 : Row) (df : DataFrame) :
  App.filtered_df (r0 :: df)
    {| App.selected_regions := Pandas.unique (map region (r0 :: df));
       App.selected_countries := Pandas.unique (map country (r0 :: df));
       App.selected_years :=
         (fold_left Z.min (map year df) (year r0),
          fold_left Z.max (map year df) (year r0));
       App.selected_category := Pandas.unique (map cost_category (r0 :: df)) |}
  = r0 :: df.
Proof.
  unfold App.filtered_df. apply filter_all. intros r Hr.
  apply mask_satisfies. unfold Spec.satisfies.
  cbn [App.selected_regions App.selected_countries App.selected_years
       App.selected_category fst snd].
  repeat split.
  - apply unique_In, in_map, Hr.
  - apply unique_In, in_map, Hr.
  - apply fold_left_min_le. apply (in_map year) in Hr. exact Hr.
  - apply fold_left_max_ge. apply (in_map year) in Hr. exact Hr.
  - apply unique_In, in_map, Hr.
Qed.

(** X18. With untouched widgets a run on a frame that has rows of two
    different years never raises: it shows the whole frame as its table and
    as its box-plot data, and writes the insight sentences. *)
Theorem first_load_shows_dataset (df : DataFrame) :
  Spec.spans_years df ->
  exists d ins,
    App.script App.untouched df = ret d
    /\ App.dataframe d = df
    /\ App.fig6 d = df
    /\ App.auto_insights d = Some ins.
Proof.
  destruct df as [| r0 df]; [intros H; destruct (spans_years_nil H) |].
  intros Hspan.
  unfold App.script. rewrite (sidebar_filters_untouched r0 df Hspan).
  cbn [bind ret].
  pose proof (untouched_view_is_dataset r0 df) as Ev.
  match type of Ev with App.filtered_df _ ?s = _ => set (sel := s) in * end.
  assert (Hne : App.filtered_df (r0 :: df) sel <> []) by (rewrite Ev; discriminate).
  destruct (render_nonempty_view (r0 :: df) sel Hne)
    as [d [ins [y0 [rest [Er [_ [_ [Hi _]]]]]]]].
  destruct (render_shows_view _ _ _ Er) as [Hd H6].
  exists d, ins. rewrite Ev in Hd, H6. auto.
Qed.

Lemma first_load_shows_dataset_witness :
  exists d ins,
    App.script App.untouched Scenario.dataset = ret d
    /\ App.dataframe d = Scenario.dataset
    /\ App.fig6 d = Scenario.dataset
    /\ App.auto_insights d = Some ins.
Proof.
  apply (first_load_shows_dataset Scenario.dataset).
  exists Scenario.india, Scenario.france. simpl.
  split; [auto |]. split; [auto | discriminate].
Defined.

Lemma first_max_all_tied {K : Type} (s : list (K * Q)) (c : K) :
  (forall e e', In e s -> In e' s -> (snd e == snd e')%Q) ->
  Spec.first_max s c -> exists m rest, s = (c, m) :: rest.
Proof.
  intros Htie [before [m [after [-> [Hbef _]]]]].
  destruct before as [| e before].
  - exists m, after. reflexivity.
  - exfalso. inversion Hbef as [| ? ? Hlt _]; subst.
    assert (E : (snd e == m)%Q).
    { apply (Htie e (c, m)); [left; reflexivity |].
      right. apply in_elt. }
    rewrite E in Hlt. exact (Qlt_irrefl _ Hlt).
Qed.

Lemma first_min_all_tied {K : Type} (s : list (K * Q)) (c : K) :
  (forall e e', In e s -> In e' s -> (snd e == snd e')%Q) ->
  Spec.first_min s c -> exists m rest, s = (c, m) :: rest.
Proof.
  intros Htie [before [m [after [-> [Hbef _]]]]].
  destruct before as [| e before].
  - exists m, after. reflexivity.
  - exfalso. inversion Hbef as [| ? ? Hlt _]; subst.
    assert (E : (snd e == m)%Q).
    { apply (Htie e (c, m)); [left; reflexivity |].
      right. apply in_elt. }
    rewrite E in Hlt. exact (Qlt_irrefl _ Hlt).
Qed.

(** X19. When all countries of a view have the same mean, in particular when
    the view has a single country, the highest-cost and the lowest-cost
    country are one and the same: the country whose name comes first. *)
Theorem tied_countries_same_extreme (view : DataFrame) :
  view <> [] ->
  (forall e e', In e (App.country_avg_cost view) ->
                In e' (App.country_avg_cost view) -> (snd e == snd e')%Q) ->
  exists c,
    App.highest_cost_country view = ret c
    /\ App.lowest_cost_country view = ret c
    /\ forall c', In c' (map country view) -> c' = c \/ String_as_OT.lt c c'.
Proof.
  intros Hne Htie.
  pose proof (country_avg_cost_nonempty view Hne) as Hs.
  destruct (idxmax_nonempty _ Hs) as [hi Ehi].
  destruct (idxmin_nonempty _ Hs) as [lo Elo].
  unfold App.highest_cost_country, App.lowest_cost_country.
  destruct (first_max_all_tied _ _ Htie (idxmax_first_max _ _ Ehi)) as [m [rest Es]].
  destruct (first_min_all_tied _ _ Htie (idxmin_first_min _ _ Elo)) as [m' [rest' Es']].
  assert (E : lo = hi) by congruence. subst lo.
  exists hi. split; [exact Ehi |]. split; [exact Elo |].
  intros c' Hc'.
  pose proof (groupby_mean_sorted country cost_healthy_diet_ppp_usd view) as SS.
  fold (App.country_avg_cost view) in SS. rewrite Es in SS.
  assert (Hk : In c' (map fst (App.country_avg_cost view))).
  { unfold App.country_avg_cost. rewrite groupby_mean_keys.
    apply group_keys_In, Hc'. }
  rewrite Es in Hk. apply in_map_iff in Hk. destruct Hk as [[k v] [Ek Hin]].
  simpl in Ek. subst k.
  inversion SS as [| ? ? _ Hall]; subst. rewrite Forall_forall in Hall.
  destruct Hin as [[= <- _] | Hin]; [left; reflexivity |].
  right. exact (Hall _ Hin).
Qed.

Lemma tied_countries_same_extreme_witness :
  exists c,
    App.highest_cost_country Scenario.twenty_tied = ret c
    /\ App.lowest_cost_country Scenario.twenty_tied = ret c
    /\ forall c', In c' (map country Scenario.twenty_tied) ->
                  c' = c \/ String_as_OT.lt c c'.
Proof.
  apply (tied_countries_same_extreme Scenario.twenty_tied); [discriminate |].
  intros e e' He He'. vm_compute in He, He'.
  repeat (destruct He as [<- | He]; [| ]); try contradiction;
    repeat (destruct He' as [<- | He']; [| ]); try contradiction; reflexivity.
Defined.
